(** * Decision-tree experiment runner: a shallow embedding

    Source: [src/ml/binary_classification/decision_tree.py].

    The script is glue around pandas, scikit-learn, optuna, numpy and joblib.
    The embedding keeps the script's own functions line by line, in a monad
    that threads the outside world (files written, standard output, the
    unseeded random source) and lets an exception escape with the world
    as it was when it was raised.

    The library calls the script makes are of two sorts.
    - What the libraries document as plain arithmetic on label vectors and
      tables (precision, recall, F-beta, the confusion matrix, sorting a
      table, the trial loop of a study and its best trial, the fold loop of
      cross validation) is written out as Rocq functions, under the
      library's name.
    - What is learned, sampled or read from disk (fitting and predicting,
      the sampler, fold construction, the CSV reader, the dataset creators
      of [experiment_dataset_creators], three further metrics) is a field
      of the record [Lib]; every theorem holds for every such library.

    Scores are Python floats in the script.  Here they are rationals (and
    NaN is kept apart, as [None]): the scores the theorems give a value
    to are quotients of sample counts.  Rounding is not modelled, so what
    is proved about the value of an F-beta score is stated for the beta of
    the script, 2, where the quotients concerned come out the same in
    floating point; precision and recall do not depend on beta.

    A write either stores the whole file or raises and stores nothing: a
    write that is interrupted half way is not modelled. *)

From Stdlib Require Import ZArith QArith Qreduction List String Ascii Bool.
From Stdlib Require Import Lia Lqa Permutation Sorted.
Import ListNotations.

Local Open Scope string_scope.
Local Open Scope Z_scope.

(** ** Exceptions and results *)

Inductive exn : Type :=
| ValueError (msg : string)
| KeyError (key : string)
| OSError (path : string)
| LibraryError (code : nat).

Inductive outcome (A : Type) : Type :=
| Ret (a : A)
| Raise (e : exn).

Arguments Ret {A} a.
Arguments Raise {A} e.

Definition is_ret {A} (o : outcome A) : bool :=
  match o with Ret _ => true | Raise _ => false end.

(** ** Label vectors *)

(** Class labels are integers (0 and 1 in the binary case). *)
Abbreviation label := Z (only parsing).

(** [sklearn.utils.multiclass.unique_labels]: the labels that occur,
    each once, in increasing order. *)
Fixpoint insert_label (x : label) (l : list label) : list label :=
  match l with
  | [] => [x]
  | h :: t =>
      if x <? h then x :: l
      else if x =? h then l
      else h :: insert_label x t
  end.

Definition unique_labels (ys : list label) : list label :=
  fold_right insert_label [] ys.

(** Number of samples whose true label is [t] and predicted label is [p]. *)
Fixpoint count_pairs (t p : label) (ys : list (label * label)) : Z :=
  match ys with
  | [] => 0
  | (a, b) :: r =>
      (if (a =? t) && (b =? p) then 1 else 0) + count_pairs t p r
  end.

Fixpoint count_label (l : label) (ys : list label) : Z :=
  match ys with
  | [] => 0
  | a :: r => (if a =? l then 1 else 0) + count_label l r
  end.

Definition consistent_length (y_true y_pred : list label) : bool :=
  Nat.eqb (List.length y_true) (List.length y_pred).

(** ** sklearn.metrics on binary targets

    [precision_score], [recall_score] and [fbeta_score] are called with
    their defaults: [average="binary"], [pos_label=1],
    [zero_division="warn"] (a quotient by zero counts as 0.0). *)

Definition pos_label : label := 1.

(** Label vectors are arrays of 64-bit integers. *)
Definition fits_int64 (l : label) : bool :=
  (- 2 ^ 63 <=? l) && (l <? 2 ^ 63).

(** What every metric checks first ([_check_targets]): the two vectors
    have one length, they are not empty, and their labels are integers of
    the array type. *)
Definition check_targets (y_true y_pred : list label) : outcome unit :=
  if negb (consistent_length y_true y_pred) then
    Raise (ValueError "Found input variables with inconsistent numbers of samples")
  else if Nat.eqb (List.length y_true) 0 then
    Raise (ValueError "Found empty input array while a minimum of 1 is required")
  else if negb (forallb fits_int64 (y_true ++ y_pred)) then
    Raise (ValueError "Unknown label type")
  else Ret tt.

(** The checks the three scores run before counting: those of
    [check_targets], at most two labels present, and the positive label
    among them when two labels are present. *)
Definition check_binary_targets (y_true y_pred : list label) : outcome unit :=
  match check_targets y_true y_pred with
  | Raise e => Raise e
  | Ret _ =>
      let present := unique_labels (y_true ++ y_pred) in
      if Nat.ltb 2 (List.length present) then
        Raise (ValueError "Target is multiclass but average=binary")
      else if negb (existsb (Z.eqb pos_label) present)
              && Nat.leb 2 (List.length present) then
        Raise (ValueError "pos_label=1 is not a valid label")
      else Ret tt
  end.

Definition prf_divide (num den : Q) : Q :=
  if Qeq_bool den 0 then 0%Q else Qred (num / den).

Definition tp_sum (y_true y_pred : list label) : Z :=
  count_pairs pos_label pos_label (combine y_true y_pred).
Definition pred_sum (y_pred : list label) : Z := count_label pos_label y_pred.
Definition true_sum (y_true : list label) : Z := count_label pos_label y_true.

Definition precision_score (y_true y_pred : list label) : outcome Q :=
  match check_binary_targets y_true y_pred with
  | Raise e => Raise e
  | Ret _ =>
      Ret (prf_divide (inject_Z (tp_sum y_true y_pred)) (inject_Z (pred_sum y_pred)))
  end.

Definition recall_score (y_true y_pred : list label) : outcome Q :=
  match check_binary_targets y_true y_pred with
  | Raise e => Raise e
  | Ret _ =>
      Ret (prf_divide (inject_Z (tp_sum y_true y_pred)) (inject_Z (true_sum y_true)))
  end.

(** F-beta from the counts:
    [(1 + beta^2) tp / ((1 + beta^2) tp + beta^2 fn + fp)], whose
    denominator is [beta^2 * true_sum + pred_sum]. A negative [beta] is
    refused. *)
Definition fbeta_score (beta : Q) (y_true y_pred : list label) : outcome Q :=
  if Qle_bool 0 beta then
    match check_binary_targets y_true y_pred with
    | Raise e => Raise e
    | Ret _ =>
        let beta2 := (beta * beta)%Q in
        Ret (prf_divide
               ((1 + beta2) * inject_Z (tp_sum y_true y_pred))%Q
               (beta2 * inject_Z (true_sum y_true) + inject_Z (pred_sum y_pred))%Q)
    end
  else Raise (ValueError "beta should be >=0 in the F-beta score").

(** [sklearn.metrics.confusion_matrix] with [labels=None]: after the
    checks of [check_targets], one row and one column per label present
    in either vector, in increasing order; entry [(i, j)] counts the
    samples of true label [i] predicted as [j]. *)
Definition confusion_matrix (y_true y_pred : list label) : outcome (list (list Z)) :=
  match check_targets y_true y_pred with
  | Raise e => Raise e
  | Ret _ =>
      let labels := unique_labels (y_true ++ y_pred) in
      Ret (map (fun t => map (fun p => count_pairs t p (combine y_true y_pred)) labels)
               labels)
  end.

Definition row_sum (r : list Z) : Z := fold_right Z.add 0 r.
Definition matrix_sum (m : list (list Z)) : Z := row_sum (map row_sum m).

Definition entry (m : list (list Z)) (i j : nat) : Z := nth j (nth i m []) 0.


Definition has_shape (rows cols : nat) (m : list (list Z)) : Prop :=
  List.length m = rows /\ Forall (fun r => List.length r = cols) m.

Definition binary (ys : list label) : Prop :=
  Forall (fun l => l = 0 \/ l = 1) ys.

Definition int64_labels (ys : list label) : Prop :=
  Forall (fun l => - 2 ^ 63 <= l < 2 ^ 63) ys.

(** ** Python values, dicts and pandas tables *)

Inductive value : Type :=
| VInt (z : Z)
| VFloat (q : Q)
| VStr (s : string)
| VNone
| VNaN.

(** A [dict] keeps its keys in insertion order; assigning to a key that is
    present replaces its value in place. *)
Definition dict := list (string * value).

Fixpoint setitem (d : dict) (k : string) (v : value) : dict :=
  match d with
  | [] => [(k, v)]
  | (k', v') :: r =>
      if String.eqb k' k then (k', v) :: r else (k', v') :: setitem r k v
  end.

Fixpoint getitem (d : dict) (k : string) : outcome value :=
  match d with
  | [] => Raise (KeyError k)
  | (k', v') :: r => if String.eqb k' k then Ret v' else getitem r k
  end.

Record DataFrame : Type := mkDataFrame {
  df_columns : list string;
  df_rows : list (list value)
}.

(** [pd.DataFrame([d])]: one row, the columns are the keys of [d]. *)
Definition DataFrame_of_record (d : dict) : DataFrame :=
  {| df_columns := map fst d; df_rows := [map snd d] |}.

(** Rows of the frame [{"Feature": names, "Importance": importances}]. *)
Definition importance_row (r : string * Q) : list value :=
  [VStr (fst r); VFloat (snd r)].

Definition DataFrame_of_importances (rows : list (string * Q)) : DataFrame :=
  {| df_columns := ["Feature"; "Importance"]; df_rows := map importance_row rows |}.

(** [sort_values("Importance", ascending=False)] on those rows: greater
    importances first.  pandas does not promise an order among rows of
    equal importance (its default sort is not stable), so that order is
    left to [before], which says of two such rows whether the first is
    put before the second. *)
Definition goes_first (before : string * Q -> string * Q -> bool)
  (r h : string * Q) : bool :=
  if Qle_bool (snd h) (snd r)
  then (if Qle_bool (snd r) (snd h) then before r h else true)
  else false.

Fixpoint insert_desc (before : string * Q -> string * Q -> bool)
  (r : string * Q) (rows : list (string * Q)) : list (string * Q) :=
  match rows with
  | [] => [r]
  | h :: t =>
      if goes_first before r h then r :: rows else h :: insert_desc before r t
  end.

Definition sort_values_importance_desc (before : string * Q -> string * Q -> bool)
  (rows : list (string * Q)) : list (string * Q) :=
  fold_right (insert_desc before) [] rows.

Definition importance_ge (a b : string * Q) : Prop := (snd b <= snd a)%Q.

(** ** Estimators, trials and files *)

(** [make_pipeline(StandardScaler(), DecisionTreeClassifier(...))], not yet
    fitted: the four keyword arguments given to the tree. *)
Record Pipeline : Type := make_pipeline {
  tree_max_depth : value;
  tree_min_samples_split : value;
  tree_min_samples_leaf : value;
  tree_class_weight : value
}.

(** A float that may be NaN. *)
Definition score := option Q.

(** What cross validation keeps of a fold: its fit failed, or it has a
    score (NaN when the scoring raised). *)
Inductive fold_result : Type :=
| FitFailed
| Scored (s : score).

Definition score_of (r : fold_result) : score :=
  match r with
  | FitFailed => None
  | Scored s => s
  end.

Definition fit_failed (r : fold_result) : bool :=
  match r with
  | FitFailed => true
  | Scored _ => false
  end.

(** There are folds and the fit failed on every one of them. *)
Definition all_fits_failed (results : list fold_result) : bool :=
  match results with
  | [] => false
  | _ :: _ => forallb fit_failed results
  end.

(** A finished trial of a study: the parameters it suggested and its
    value; a trial whose objective returned NaN is recorded as failed and
    has no value. *)
Record frozen_trial : Type := mkTrial {
  trial_params : dict;
  trial_value : score
}.

Definition study := list frozen_trial.

(** A trial while its objective runs: the study it belongs to and the
    parameters suggested so far. *)
Record trial : Type := mkLive {
  trial_study : study;
  suggested : dict
}.

Inductive content (Model : Type) : Type :=
| Csv (t : DataFrame)
| Txt (m : list (list Z))
| Joblib (model : Model).

Arguments Csv {Model} t.
Arguments Txt {Model} m.
Arguments Joblib {Model} model.

(** ** The libraries the script relies on, as an interface *)

Record Lib : Type := mkLib {
  Frame : Type;
  Model : Type;
  rng : Type;
  (* pandas *)
  columns : Frame -> list string;
  read_csv : string -> outcome Frame;
  (* how a sort of this table orders two rows of equal importance *)
  tie_order : list (string * Q) -> string * Q -> string * Q -> bool;
  (* experiment_dataset_creators: X_train, X_test, y_train, y_test *)
  create_experiment1_dataset : Frame -> outcome (Frame * Frame * list label * list label);
  create_experiment2_dataset : Frame -> outcome (Frame * Frame * list label * list label);
  create_experiment3_dataset : Frame -> outcome (Frame * Frame * list label * list label);
  create_experiment4_dataset : Frame -> outcome (Frame * Frame * list label * list label);
  (* optuna's sampler, given the trials finished so far *)
  sample_int : study -> string -> Z -> Z -> rng -> Z * rng;
  sample_float : study -> string -> Q -> Q -> rng -> Q * rng;
  sample_choice : study -> string -> nat -> rng -> nat * rng;
  (* sklearn: folds as (X_train, y_train, X_test, y_test) *)
  cv_split : nat -> Frame -> list label -> outcome (list (Frame * list label * Frame * list label));
  fit : Pipeline -> Frame -> list label -> rng -> outcome Model * rng;
  predict : Model -> Frame -> outcome (list label);
  feature_importances_ : Model -> list Q;
  cohen_kappa_score : list label -> list label -> outcome value;
  balanced_accuracy_score : list label -> list label -> outcome value;
  average_precision_score : list label -> list label -> outcome value;
  (* the file system: can a file be created at this path *)
  writable : string -> bool;
  (* str() of a float and of a dict *)
  repr_float : Q -> string;
  repr_dict : dict -> string
}.

(** What optuna promises of a suggestion: it lies in the range asked for. *)
Record sampler_in_range (L : Lib) : Prop := {
  sample_int_range : forall h n lo hi r,
      lo <= hi -> lo <= fst (sample_int L h n lo hi r) <= hi;
  sample_float_range : forall h n lo hi r,
      (lo <= hi)%Q ->
      (lo <= fst (sample_float L h n lo hi r))%Q /\
      (fst (sample_float L h n lo hi r) <= hi)%Q;
  sample_choice_range : forall h n k r,
      (0 < k)%nat -> (fst (sample_choice L h n k r) < k)%nat
}.

(** What k-fold splitting promises: [k] folds when it succeeds. *)
Definition cv_split_k_folds (L : Lib) : Prop :=
  forall k X y folds, cv_split L k X y = Ret folds -> List.length folds = k.

(** ** The world and the monad of the script *)

Record world (L : Lib) : Type := mkWorld {
  files : list (string * content (Model L));   (* writes, oldest first *)
  stdout : list string;                        (* lines printed, oldest first *)
  entropy : rng L                              (* the unseeded random source *)
}.

Arguments mkWorld {L} files stdout entropy.
Arguments files {L} w.
Arguments stdout {L} w.
Arguments entropy {L} w.

(** A computation returns or raises, and leaves a world either way. *)
Definition M (L : Lib) (A : Type) : Type := world L -> outcome A * world L.

Section Program.

Variable L : Lib.

Definition ret {A} (a : A) : M L A := fun w => (Ret a, w).

Definition raise {A} (e : exn) : M L A := fun w => (Raise e, w).

Definition bind {A B} (m : M L A) (f : A -> M L B) : M L B :=
  fun w =>
    match m w with
    | (Ret a, w') => f a w'
    | (Raise e, w') => (Raise e, w')
    end.

Notation "x <- m ;; k" := (bind m (fun x => k))
  (at level 61, m at next level, right associativity).
Notation "' p <- m ;; k" := (bind m (fun x => let 'p := x in k))
  (at level 61, p pattern, m at next level, right associativity).
Notation "m ;; k" := (bind m (fun _ => k))
  (at level 61, right associativity).

(** A library call that touches nothing of the world. *)
Definition lift {A} (o : outcome A) : M L A := fun w => (o, w).

(** A random draw. *)
Definition draw {A} (f : rng L -> A * rng L) : M L A :=
  fun w =>
    let (a, r) := f (entropy w) in
    (Ret a, mkWorld (files w) (stdout w) r).

(** A fit: it draws, and it may fail. *)
Definition draw_outcome {A} (f : rng L -> outcome A * rng L) : M L A :=
  fun w =>
    let (o, r) := f (entropy w) in
    (o, mkWorld (files w) (stdout w) r).

(** What [to_csv], [np.savetxt] and [joblib.dump] have in common: the file
    is stored whole, or the call raises and the path is left as it was. *)
Definition write_file (path : string) (c : content (Model L)) : M L unit :=
  fun w =>
    if writable L path
    then (Ret tt, mkWorld (files w ++ [(path, c)])%list (stdout w) (entropy w))
    else (Raise (OSError path), w).

Definition print (line : string) : M L unit :=
  fun w => (Ret tt, mkWorld (files w) (stdout w ++ [line])%list (entropy w)).

(** A score, or NaN when the scoring raises. *)
Definition nan_on_error (m : M L Q) : M L score :=
  fun w =>
    match m w with
    | (Ret q, w') => (Ret (Some q), w')
    | (Raise _, w') => (Ret None, w')
    end.

Fixpoint mapM {A B} (f : A -> M L B) (l : list A) : M L (list B) :=
  match l with
  | [] => ret []
  | a :: r => b <- f a ;; bs <- mapM f r ;; ret (b :: bs)
  end.

(** ** Library routines written out *)

(** [DataFrame.to_csv(path, index=False)], [np.savetxt], [joblib.dump]. *)
Definition to_csv (t : DataFrame) (path : string) : M L unit :=
  write_file path (Csv t).

Definition savetxt (filename : string) (m : list (list Z)) : M L unit :=
  write_file filename (Txt m).

Definition dump (model : Model L) (filename : string) : M L unit :=
  write_file filename (Joblib model).

(** [trial.suggest_int], [trial.suggest_float], [trial.suggest_categorical]:
    ask the sampler, record the parameter in the trial. *)
Definition suggest_int (t : trial) (name : string) (low high : Z) : M L (Z * trial) :=
  v <- draw (sample_int L (trial_study t) name low high) ;;
  ret (v, mkLive (trial_study t) (setitem (suggested t) name (VInt v))).

Definition suggest_float (t : trial) (name : string) (low high : Q) : M L (Q * trial) :=
  v <- draw (sample_float L (trial_study t) name low high) ;;
  ret (v, mkLive (trial_study t) (setitem (suggested t) name (VFloat v))).

Definition suggest_categorical (t : trial) (name : string) (choices : list value)
  : M L (value * trial) :=
  i <- draw (sample_choice L (trial_study t) name (List.length choices)) ;;
  let v := nth i choices VNone in
  ret (v, mkLive (trial_study t) (setitem (suggested t) name v)).

(** [make_scorer(score_func)]: predict, then score against the truth. *)
Definition make_scorer (score_func : list label -> list label -> outcome Q)
  (m : Model L) (X : Frame L) (y : list label) : M L Q :=
  y_pred <- lift (predict L m X) ;;
  lift (score_func y y_pred).

Definition fit_pipeline (p : Pipeline) (X : Frame L) (y : list label) : M L (Model L) :=
  draw_outcome (fit L p X y).

(** One fold of [cross_val_score] with [error_score=nan] (the default): a
    fit that raises is recorded as failed, a scoring that raises scores
    NaN. *)
Definition fit_and_score (estimator : Pipeline)
  (scoring : Model L -> Frame L -> list label -> M L Q)
  (fold : Frame L * list label * Frame L * list label) : M L fold_result :=
  let '(X_tr, y_tr, X_te, y_te) := fold in
  fun w =>
    match fit_pipeline estimator X_tr y_tr w with
    | (Ret m, w') => (s <- nan_on_error (scoring m X_te y_te) ;; ret (Scored s)) w'
    | (Raise _, w') => (Ret FitFailed, w')
    end.

(** [cross_val_score(estimator, X, y, cv=cv, scoring=scoring)]: one score
    per fold, NaN for a fold that failed; when the fit failed on every
    fold it raises instead. *)
Definition cross_val_score (estimator : Pipeline) (X : Frame L) (y : list label)
  (cv : nat) (scoring : Model L -> Frame L -> list label -> M L Q) : M L (list score) :=
  folds <- lift (cv_split L cv X y) ;;
  results <- mapM (fit_and_score estimator scoring) folds ;;
  if all_fits_failed results
  then raise (ValueError "All the fits failed")
  else ret (map score_of results).

(** [ndarray.mean()]: NaN if empty or if some entry is NaN. *)
Fixpoint sum_scores (l : list score) : score :=
  match l with
  | [] => Some 0%Q
  | None :: _ => None
  | Some q :: r =>
      match sum_scores r with
      | Some s => Some (q + s)%Q
      | None => None
      end
  end.

Definition mean (l : list score) : score :=
  match l, sum_scores l with
  | _ :: _, Some s => Some (Qred (s / inject_Z (Z.of_nat (List.length l))))
  | _, _ => None
  end.

(** [optuna.create_study(direction="maximize")] and
    [study.optimize(func, n_trials=n)]: run the objective on [n] fresh
    trials, one after the other; an exception of the objective escapes. *)
Definition create_study : M L study := ret [].

Fixpoint optimize (st : study) (func : trial -> M L (score * trial)) (n_trials : nat)
  : M L study :=
  match n_trials with
  | O => ret st
  | S n =>
      '(v, t) <- func (mkLive st []) ;;
      optimize (st ++ [mkTrial (suggested t) v])%list func n
  end.

(** [study.best_trial]: the first of the trials of greatest value among
    those that have one; [ValueError] when no trial has a value. *)
Fixpoint best_from (best : frozen_trial) (bv : Q) (ts : study) : frozen_trial :=
  match ts with
  | [] => best
  | t :: r =>
      match trial_value t with
      | Some v => if Qle_bool v bv then best_from best bv r else best_from t v r
      | None => best_from best bv r
      end
  end.

Fixpoint best_trial (ts : study) : outcome frozen_trial :=
  match ts with
  | [] => Raise (ValueError "No trials are completed yet.")
  | t :: r =>
      match trial_value t with
      | Some v => Ret (best_from t v r)
      | None => best_trial r
      end
  end.

(** [study.best_params]. *)
Definition best_params_of (st : study) : outcome dict :=
  match best_trial st with
  | Ret t => Ret (trial_params t)
  | Raise e => Raise e
  end.

Definition repr_score (s : score) : string :=
  match s with
  | Some q => repr_float L q
  | None => "nan"
  end.

(** [pd.DataFrame({"Feature": names, "Importance": importances})]: the two
    columns must have one length. *)
Definition importances_frame (feature_names : list string) (importances : list Q)
  : outcome (list (string * Q)) :=
  if Nat.eqb (List.length feature_names) (List.length importances)
  then Ret (combine feature_names importances)
  else Raise (ValueError "All arrays must be of the same length").

(** ** The script *)

Definition load_data (filepath : string) : M L (Frame L) :=
  df <- lift (read_csv L filepath) ;;
  ret df.

Definition save_model (model : Model L) (filename : string) : M L unit :=
  dump model filename.

(* def objective(trial, X, y, beta) *)
Definition objective (t : trial) (X : Frame L) (y : list label) (beta : Q)
  : M L (score * trial) :=
  '(max_depth, t) <- suggest_int t "max_depth" 1 50 ;;
  '(min_samples_split, t) <- suggest_float t "min_samples_split" (1 # 1000) 1 ;;
  '(min_samples_leaf, t) <- suggest_float t "min_samples_leaf" (1 # 1000) (1 # 2) ;;
  '(class_weight, t) <- suggest_categorical t "class_weight" [VNone; VStr "balanced"] ;;
  let model :=
    make_pipeline (VInt max_depth) (VFloat min_samples_split)
                  (VFloat min_samples_leaf) class_weight in
  scores <- cross_val_score model X y 5 (make_scorer (fbeta_score beta)) ;;
  ret (mean scores, t).

(* def compute_and_save_metrics(y_true, y_pred, beta=1, save_path=<empty>);
   both callers give every argument. *)
Definition compute_and_save_metrics (y_true y_pred : list label) (beta : Q)
  (save_path : string) : M L unit :=
  precision <- lift (precision_score y_true y_pred) ;;
  recall <- lift (recall_score y_true y_pred) ;;
  fbeta <- lift (fbeta_score beta y_true y_pred) ;;
  kappa <- lift (cohen_kappa_score L y_true y_pred) ;;
  balanced_accuracy <- lift (balanced_accuracy_score L y_true y_pred) ;;
  average_precision <- lift (average_precision_score L y_true y_pred) ;;
  let metrics : dict := [] in
  let metrics := setitem metrics "Precision" (VFloat precision) in
  let metrics := setitem metrics "Recall" (VFloat recall) in
  let metrics := setitem metrics "Fbeta Score" (VFloat fbeta) in
  let metrics := setitem metrics "Cohen Kappa" kappa in
  let metrics := setitem metrics "Balanced Accuracy" balanced_accuracy in
  let metrics := setitem metrics "Average Precision" average_precision in
  let metrics_df := DataFrame_of_record metrics in
  let file_name := save_path in
  to_csv metrics_df file_name.

(* def calculate_and_save_feature_importances(model, feature_names, save_path) *)
Definition calculate_and_save_feature_importances (model : Model L)
  (feature_names : list string) (save_path : string) : M L unit :=
  let tree := model in
  let importances := feature_importances_ L tree in
  feature_importances <- lift (importances_frame feature_names importances) ;;
  let feature_importances :=
    sort_values_importance_desc (tie_order L feature_importances) feature_importances in
  to_csv (DataFrame_of_importances feature_importances) save_path.

(* def save_confusion_matrix(y_true, y_pred, filename) *)
Definition save_confusion_matrix (y_true y_pred : list label) (filename : string)
  : M L unit :=
  cm <- lift (confusion_matrix y_true y_pred) ;;
  savetxt filename cm.

(* def decision_tree_experiment(X_train, y_train, X_test, y_test, beta,
       experiment_dictionary, model_directory, experiment_number) *)
Definition decision_tree_experiment (X_train : Frame L) (y_train : list label)
  (X_test : Frame L) (y_test : list label) (beta : Q)
  (experiment_dictionary model_directory experiment_number : string) : M L unit :=
  st <- create_study ;;
  st <- optimize st (fun t => objective t X_train y_train beta) 100 ;;
  best <- lift (best_trial st) ;;
  print ("Best trial recall: " ++ repr_score (trial_value best)
         ++ ", Params: " ++ repr_dict L (trial_params best)) ;;
  best_params <- lift (best_params_of st) ;;
  let best_hyperparameters : dict := [] in
  v <- lift (getitem best_params "max_depth") ;;
  let best_hyperparameters := setitem best_hyperparameters "max_depth" v in
  v <- lift (getitem best_params "min_samples_split") ;;
  let best_hyperparameters := setitem best_hyperparameters "min_samples_split" v in
  v <- lift (getitem best_params "min_samples_leaf") ;;
  let best_hyperparameters := setitem best_hyperparameters "min_samples_leaf" v in
  v <- lift (getitem best_params "class_weight") ;;
  let best_hyperparameters := setitem best_hyperparameters "class_weight" v in
  let hyperparameters_df := DataFrame_of_record best_hyperparameters in
  let file_name := "results/" ++ experiment_dictionary ++ "/hyperparameters.csv" in
  to_csv hyperparameters_df file_name ;;
  max_depth <- lift (getitem best_params "max_depth") ;;
  min_samples_split <- lift (getitem best_params "min_samples_split") ;;
  min_samples_leaf <- lift (getitem best_params "min_samples_leaf") ;;
  class_weight <- lift (getitem best_params "class_weight") ;;
  let model := make_pipeline max_depth min_samples_split min_samples_leaf class_weight in
  model <- fit_pipeline model X_train y_train ;;
  y_pred <- lift (predict L model X_test) ;;
  compute_and_save_metrics y_test y_pred beta
    ("results/" ++ experiment_dictionary ++ "/metrics.csv") ;;
  calculate_and_save_feature_importances model (columns L X_train)
    ("results/" ++ experiment_dictionary ++ "/feature_importances.csv") ;;
  save_confusion_matrix y_test y_pred
    ("results/" ++ experiment_dictionary ++ "/confusion_matrix.txt") ;;
  let model_save_filepath :=
    "models/" ++ model_directory ++ "/" ++ experiment_number ++ ".joblib" in
  save_model model model_save_filepath.

(* def run_decision_tree(filepath) *)
Definition run_decision_tree (filepath : string) : M L unit :=
  df <- load_data filepath ;;
  '(X1_train, X1_test, y1_train, y1_test) <- lift (create_experiment1_dataset L df) ;;
  '(X2_train, X2_test, y2_train, y2_test) <- lift (create_experiment2_dataset L df) ;;
  '(X3_train, X3_test, y3_train, y3_test) <- lift (create_experiment3_dataset L df) ;;
  '(X4_train, X4_test, y4_train, y4_test) <- lift (create_experiment4_dataset L df) ;;
  decision_tree_experiment X1_train y1_train X1_test y1_test 2
    "decision_tree_experiment1" "decision_tree" "1" ;;
  decision_tree_experiment X2_train y2_train X2_test y2_test 2
    "decision_tree_experiment2" "decision_tree" "2" ;;
  decision_tree_experiment X3_train y3_train X3_test y3_test 2
    "decision_tree_experiment3" "decision_tree" "3" ;;
  decision_tree_experiment X4_train y4_train X4_test y4_test 2
    "decision_tree_experiment4" "decision_tree" "4".

(* if __name__ == "__main__" *)
Definition main : M L unit := run_decision_tree "data/ai4i2020.csv".

End Program.

(** * Vocabulary of the specification *)

(** The five artifacts of an experiment, in the order the script writes
    them. *)
Definition artifact_paths (experiment_dictionary model_directory experiment_number : string)
  : list string :=
  [ "results/" ++ experiment_dictionary ++ "/hyperparameters.csv";
    "results/" ++ experiment_dictionary ++ "/metrics.csv";
    "results/" ++ experiment_dictionary ++ "/feature_importances.csv";
    "results/" ++ experiment_dictionary ++ "/confusion_matrix.txt";
    "models/" ++ model_directory ++ "/" ++ experiment_number ++ ".joblib" ].

Definition prefix_of {A : Type} (l1 l2 : list A) : Prop :=
  exists rest, l2 = (l1 ++ rest)%list.

(** [writes m ps]: whatever the world, the files [m] writes are written
    after those already there, to the paths [ps] in this order, up to the
    point where [m] raises; all of [ps] when it returns. *)
Definition writes {L : Lib} {A : Type} (m : M L A) (ps : list string) : Prop :=
  forall w o w',
    m w = (o, w') ->
    exists new,
      files w' = (files w ++ new)%list /\
      prefix_of (map fst new) ps /\
      (is_ret o = true -> map fst new = ps).

(** [framed m]: [m] reads nothing of the world but the random source; it
    only adds to the files and to the output. *)
Definition framed {L : Lib} {A : Type} (m : M L A) : Prop :=
  forall w,
    m w =
    (let (o, w0) := m (mkWorld [] [] (entropy w)) in
     (o, mkWorld (files w ++ files w0)%list (stdout w ++ stdout w0)%list (entropy w0))).

(** The search space of the objective, as a dict of four parameters. *)
Definition in_space (d : dict) : Prop :=
  exists (depth : Z) (split leaf : Q) (weight : value),
    d = [ ("max_depth", VInt depth);
          ("min_samples_split", VFloat split);
          ("min_samples_leaf", VFloat leaf);
          ("class_weight", weight) ] /\
    1 <= depth <= 50 /\
    ((1 # 1000) <= split)%Q /\ (split <= 1)%Q /\
    ((1 # 1000) <= leaf)%Q /\ (leaf <= (1 # 2))%Q /\
    (weight = VNone \/ weight = VStr "balanced").

(** A train/test split as the dataset creators return it:
    X_train, X_test, y_train, y_test. *)
Definition dataset (L : Lib) : Type := (Frame L * Frame L * list label * list label)%type.

(** The four calls of [run_decision_tree], as a table: the experiment
    number and the split it runs on. *)
Definition experiment_table {L : Lib} (d1 d2 d3 d4 : dataset L)
  : list (string * dataset L) :=
  [("1", d1); ("2", d2); ("3", d3); ("4", d4)].

Definition experiment_call (L : Lib) (x : string * dataset L) : M L unit :=
  let '(number, (X_train, X_test, y_train, y_test)) := x in
  decision_tree_experiment L X_train y_train X_test y_test 2
    ("decision_tree_experiment" ++ number) "decision_tree" number.

Definition experiment_paths (number : string) : list string :=
  artifact_paths ("decision_tree_experiment" ++ number) "decision_tree" number.

(** The first lines of [run_decision_tree]: load the table and build the
    four splits, before any experiment runs. *)
Definition load_datasets (L : Lib) (filepath : string)
  : M L (dataset L * dataset L * dataset L * dataset L) :=
  bind L (load_data L filepath) (fun df =>
  bind L (lift L (create_experiment1_dataset L df)) (fun d1 =>
  bind L (lift L (create_experiment2_dataset L df)) (fun d2 =>
  bind L (lift L (create_experiment3_dataset L df)) (fun d3 =>
  bind L (lift L (create_experiment4_dataset L df)) (fun d4 =>
  ret L (d1, d2, d3, d4)))))).

(** Calls run one after the other; the first exception ends the run. *)
Fixpoint run_calls (L : Lib) (calls : list (M L unit)) : M L unit :=
  match calls with
  | [] => ret L tt
  | [c] => c
  | c :: rest => bind L c (fun _ => run_calls L rest)
  end.

(** One fold of cross validation scored with F-beta: the fit draws from
    the random source; a fit, a prediction or a score that raises gives
    NaN. *)
Definition fold_fbeta (L : Lib) (estimator : Pipeline) (beta : Q)
  (fold : Frame L * list label * Frame L * list label) (r : rng L) : score * rng L :=
  let '(X_tr, y_tr, X_te, y_te) := fold in
  match fit L estimator X_tr y_tr r with
  | (Ret m, r') =>
      match predict L m X_te with
      | Ret y_pred =>
          match fbeta_score beta y_te y_pred with
          | Ret q => (Some q, r')
          | Raise _ => (None, r')
          end
      | Raise _ => (None, r')
      end
  | (Raise _, r') => (None, r')
  end.

Fixpoint folds_fbeta (L : Lib) (estimator : Pipeline) (beta : Q)
  (folds : list (Frame L * list label * Frame L * list label)) (r : rng L)
  : list score * rng L :=
  match folds with
  | [] => ([], r)
  | f :: rest =>
      let (s, r1) := fold_fbeta L estimator beta f r in
      let (ss, r2) := folds_fbeta L estimator beta rest r1 in
      (s :: ss, r2)
  end.

(** Whether the fit of a fold fails, and what cross validation keeps of
    the folds. *)
Definition fit_fails (L : Lib) (estimator : Pipeline)
  (fold : Frame L * list label * Frame L * list label) (r : rng L) : bool :=
  let '(X_tr, y_tr, _, _) := fold in
  negb (is_ret (fst (fit L estimator X_tr y_tr r))).

Fixpoint folds_results (L : Lib) (estimator : Pipeline) (beta : Q)
  (folds : list (Frame L * list label * Frame L * list label)) (r : rng L)
  : list fold_result :=
  match folds with
  | [] => []
  | f :: rest =>
      (if fit_fails L estimator f r then FitFailed
       else Scored (fst (fold_fbeta L estimator beta f r)))
      :: folds_results L estimator beta rest (snd (fold_fbeta L estimator beta f r))
  end.

(** The same fold scored with recall, for comparison. *)
Definition fold_recall (L : Lib) (estimator : Pipeline)
  (fold : Frame L * list label * Frame L * list label) (r : rng L) : score * rng L :=
  let '(X_tr, y_tr, X_te, y_te) := fold in
  match fit L estimator X_tr y_tr r with
  | (Ret m, r') =>
      match predict L m X_te with
      | Ret y_pred =>
          match recall_score y_te y_pred with
          | Ret q => (Some q, r')
          | Raise _ => (None, r')
          end
      | Raise _ => (None, r')
      end
  | (Raise _, r') => (None, r')
  end.

(** The candidate a trial samples, in the order the objective asks for it,
    and the random source after the four draws. *)
Definition sampled_candidate (L : Lib) (st : study) (r : rng L)
  : Z * Q * Q * value * rng L :=
  let (depth, r1) := sample_int L st "max_depth" 1 50 r in
  let (split, r2) := sample_float L st "min_samples_split" (1 # 1000) 1 r1 in
  let (leaf, r3) := sample_float L st "min_samples_leaf" (1 # 1000) (1 # 2) r2 in
  let (i, r4) := sample_choice L st "class_weight" 2 r3 in
  (depth, split, leaf, nth i [VNone; VStr "balanced"] VNone, r4).

Definition candidate_params (depth : Z) (split leaf : Q) (weight : value) : dict :=
  [ ("max_depth", VInt depth);
    ("min_samples_split", VFloat split);
    ("min_samples_leaf", VFloat leaf);
    ("class_weight", weight) ].

Definition candidate_pipeline (depth : Z) (split leaf : Q) (weight : value) : Pipeline :=
  make_pipeline (VInt depth) (VFloat split) (VFloat leaf) weight.

(** The search as a function of the random source: [n] trials of [cv]-fold
    cross validation scored with F-beta, added to the study [st]; it ends
    with the first trial in which no fold can be fitted. *)
Fixpoint search (L : Lib) (X : Frame L) (y : list label) (beta : Q) (cv : nat)
  (st : study) (n : nat) (r : rng L) : outcome study * rng L :=
  match n with
  | O => (Ret st, r)
  | S n' =>
      let '(depth, split, leaf, weight, r4) := sampled_candidate L st r in
      match cv_split L cv X y with
      | Raise e => (Raise e, r4)
      | Ret folds =>
          let (scores, r5) :=
            folds_fbeta L (candidate_pipeline depth split leaf weight) beta folds r4 in
          if all_fits_failed
               (folds_results L (candidate_pipeline depth split leaf weight) beta folds r4)
          then (Raise (ValueError "All the fits failed"), r5)
          else
            search L X y beta cv
              (st ++ [mkTrial (candidate_params depth split leaf weight) (mean scores)])%list
              n' r5
      end
  end.

(** What the search leaves in a study for one trial: parameters sampled
    from the space and, as value, the mean of the F-beta scores of the
    [cv] folds of the pipeline with these parameters. *)
Definition fbeta_trial (L : Lib) (X : Frame L) (y : list label) (beta : Q) (cv : nat)
  (t : frozen_trial) : Prop :=
  exists depth split leaf weight folds r,
    trial_params t = candidate_params depth split leaf weight /\
    cv_split L cv X y = Ret folds /\
    trial_value t =
      mean (fst (folds_fbeta L (candidate_pipeline depth split leaf weight)
                   beta folds r)).

(** The same with the value written out: the scores of the five folds
    added up and divided by five, NaN when a fold has no score. *)
Definition sum_over_five (scores : list score) (v : score) : Prop :=
  match v with
  | Some m =>
      exists q1 q2 q3 q4 q5,
        scores = [Some q1; Some q2; Some q3; Some q4; Some q5] /\
        (m == (q1 + q2 + q3 + q4 + q5) / 5)%Q
  | None => List.length scores = 5%nat /\ In None scores
  end.

Definition five_fold_fbeta_trial (L : Lib) (X : Frame L) (y : list label) (beta : Q)
  (t : frozen_trial) : Prop :=
  exists depth split leaf weight folds r,
    trial_params t = candidate_params depth split leaf weight /\
    cv_split L 5 X y = Ret folds /\
    List.length folds = 5%nat /\
    sum_over_five
      (fst (folds_fbeta L (candidate_pipeline depth split leaf weight) beta folds r))
      (trial_value t).

(** The line the experiment prints about its best trial. *)
Definition best_trial_line (L : Lib) (best : frozen_trial) : string :=
  "Best trial recall: " ++ repr_score L (trial_value best)
  ++ ", Params: " ++ repr_dict L (trial_params best).

(** [keeps_stdout m]: [m] prints nothing. *)
Definition keeps_stdout {L : Lib} {A : Type} (m : M L A) : Prop :=
  forall w o w', m w = (o, w') -> stdout w' = stdout w.

(** ** A small library instance

    Frames are a column of integers under three column names, a fitted model is its own
    parameters, the sampler walks through
    the ranges from an integer seed, and the paths in [blocked] cannot be
    written. *)

(** A tree of even depth predicts the positive class everywhere, a tree of
    odd depth predicts the column it is given. *)
Definition small_predict (m : Pipeline) (X : list Z) : outcome (list Z) :=
  match tree_max_depth m with
  | VInt d => if Z.even d then Ret (map (fun _ => 1) X) else Ret X
  | _ => Ret X
  end.

Definition small_sample_int (h : study) (name : string) (low high : Z) (r : Z) : Z * Z :=
  (low + r mod (high - low + 1), r + 1).

Definition small_sample_float (h : study) (name : string) (low high : Q) (r : Z) : Q * Z :=
  (if Z.even r then low else high, r + 1).

Definition small_sample_choice (h : study) (name : string) (k : nat) (r : Z) : nat * Z :=
  (Z.to_nat (r mod Z.of_nat k), r + 1).

Definition small_lib (blocked : list string) : Lib :=
  {| Frame := list Z;
     Model := Pipeline;
     rng := Z;
     columns := fun _ => ["a"; "b"; "c"];
     read_csv := fun _ => Ret [1; 0; 1; 1];
     tie_order := fun _ _ _ => true;
     create_experiment1_dataset := fun df => Ret (df, df, df, df);
     create_experiment2_dataset := fun df => Ret (df, df, df, df);
     create_experiment3_dataset := fun df => Ret (df, df, df, df);
     create_experiment4_dataset := fun df => Ret (df, df, df, df);
     sample_int := small_sample_int;
     sample_float := small_sample_float;
     sample_choice := small_sample_choice;
     cv_split := fun k X y => Ret (repeat (X, y, X, y) k);
     fit := fun p X y r => (Ret p, r + 1);
     predict := small_predict;
     feature_importances_ := fun _ => [(1 # 4)%Q; (1 # 2)%Q; (1 # 4)%Q];
     cohen_kappa_score := fun _ _ => Ret (VFloat 1);
     balanced_accuracy_score := fun _ _ => Ret (VFloat 1);
     average_precision_score := fun _ _ => Ret (VFloat 1);
     writable := fun p => negb (existsb (String.eqb p) blocked);
     repr_float := fun _ => "<float>";
     repr_dict := fun _ => "<dict>" |}.

Definition small_world (blocked : list string) (seed : Z) : world (small_lib blocked) :=
  @mkWorld (small_lib blocked) [] [] seed.

Definition small_frame : list Z := [1; 0; 1; 1].

(** One experiment on the small library, from a given seed. *)
Definition small_experiment (seed : Z)
  : outcome unit * world (small_lib []) :=
  decision_tree_experiment (small_lib []) small_frame small_frame small_frame small_frame
    2 "demo" "tree" "1" (small_world [] seed).

(** A fold on which the small library's even-depth tree predicts one false
    positive and no false negative. *)
Definition small_fold : list Z * list Z * list Z * list Z :=
  (small_frame, small_frame, small_frame, small_frame).

(** A run on the small library in which the metrics file of the second
    experiment cannot be created. *)
Definition small_blocked : list string :=
  ["results/decision_tree_experiment2/metrics.csv"].

Definition small_after_one : world (small_lib small_blocked) :=
  snd (run_calls (small_lib small_blocked)
         (map (experiment_call (small_lib small_blocked)) [("1", small_fold)])
         (small_world small_blocked 0)).

Definition small_after_failure : world (small_lib small_blocked) :=
  snd (experiment_call (small_lib small_blocked) ("2", small_fold) small_after_one).

(** ** Further vocabulary *)

(** The one-row table of [compute_and_save_metrics]. *)
Definition metrics_table (precision recall fbeta : Q) (kappa balanced average : value)
  : DataFrame :=
  {| df_columns := ["Precision"; "Recall"; "Fbeta Score"; "Cohen Kappa";
                    "Balanced Accuracy"; "Average Precision"];
     df_rows := [[VFloat precision; VFloat recall; VFloat fbeta;
                  kappa; balanced; average]] |}.

Definition in_unit_interval (q : Q) : Prop := (0 <= q)%Q /\ (q <= 1)%Q.

Definition starts_with (start s : string) : Prop := exists rest, s = start ++ rest.


(** No string occurs twice. *)
Fixpoint distinctb (l : list string) : bool :=
  match l with
  | [] => true
  | p :: rest => negb (existsb (String.eqb p) rest) && distinctb rest
  end.

(** The twenty artifact paths of a run, in the order they are written. *)
Definition run_paths : list string :=
  flat_map experiment_paths ["1"; "2"; "3"; "4"].

(** ** Variants of the small library

    The CSV reader, the creator of the fourth split, the fold splitter and
    the fit are given; the rest is as in [small_lib]. *)
Definition variant_lib
  (read : string -> outcome (list Z))
  (create4 : list Z -> outcome (list Z * list Z * list Z * list Z))
  (split : nat -> list Z -> list Z ->
           outcome (list (list Z * list Z * list Z * list Z)))
  (fit_ : Pipeline -> list Z -> list Z -> Z -> outcome Pipeline * Z) : Lib :=
  {| Frame := list Z;
     Model := Pipeline;
     rng := Z;
     columns := fun _ => ["a"; "b"; "c"];
     read_csv := read;
     tie_order := fun _ _ _ => true;
     create_experiment1_dataset := fun df => Ret (df, df, df, df);
     create_experiment2_dataset := fun df => Ret (df, df, df, df);
     create_experiment3_dataset := fun df => Ret (df, df, df, df);
     create_experiment4_dataset := create4;
     sample_int := small_sample_int;
     sample_float := small_sample_float;
     sample_choice := small_sample_choice;
     cv_split := split;
     fit := fit_;
     predict := small_predict;
     feature_importances_ := fun _ => [(1 # 4)%Q; (1 # 2)%Q; (1 # 4)%Q];
     cohen_kappa_score := fun _ _ => Ret (VFloat 1);
     balanced_accuracy_score := fun _ _ => Ret (VFloat 1);
     average_precision_score := fun _ _ => Ret (VFloat 1);
     writable := fun _ => true;
     repr_float := fun _ => "<float>";
     repr_dict := fun _ => "<dict>" |}.

Definition small_read (path : string) : outcome (list Z) := Ret small_frame.

Definition small_create (df : list Z) : outcome (list Z * list Z * list Z * list Z) :=
  Ret (df, df, df, df).

Definition small_split (k : nat) (X y : list Z)
  : outcome (list (list Z * list Z * list Z * list Z)) :=
  Ret (repeat (X, y, X, y) k).

Definition small_fit (p : Pipeline) (X y : list Z) (r : Z) : outcome Pipeline * Z :=
  (Ret p, r + 1).

(** The fourth split cannot be built. *)
Definition lib_without_fourth_split : Lib :=
  variant_lib small_read (fun _ => Raise (KeyError "Machine failure"))
              small_split small_fit.

(** A fit fails whenever the random source is in an even state: in every
    trial some fold fails. *)
Definition lib_with_failing_folds : Lib :=
  variant_lib small_read small_create small_split
              (fun p _ _ r =>
                 if Z.even r then (Raise (ValueError "could not fit"), r + 1)
                 else (Ret p, r + 1)).

(** Folds are cut to two rows and only frames of at most three rows can be
    fitted: the search fits, the refit on the whole training split does
    not. *)
Definition lib_without_refit : Lib :=
  variant_lib small_read small_create
              (fun k X y => Ret (repeat (firstn 2 X, firstn 2 y, firstn 2 X, firstn 2 y) k))
              (fun p X _ r =>
                 if Nat.leb (List.length X) 3 then (Ret p, r + 1)
                 else (Raise (ValueError "could not fit"), r + 1)).

(** The search of an experiment on the library with failing folds, and
    the study it returns. *)
Definition failing_folds_search
  : outcome study * world lib_with_failing_folds :=
  optimize lib_with_failing_folds []
    (fun t => objective lib_with_failing_folds t small_frame small_frame 2) 100
    (@mkWorld lib_with_failing_folds [] [] 0).

Definition failing_folds_study : study :=
  match fst failing_folds_search with
  | Ret st => st
  | Raise _ => []
  end.

(** The search of an experiment on the library without refit, its study
    and its best trial. *)
Definition without_refit_search
  : outcome study * world lib_without_refit :=
  optimize lib_without_refit []
    (fun t => objective lib_without_refit t small_frame small_frame 2) 100
    (@mkWorld lib_without_refit [] [] 0).

Definition without_refit_study : study :=
  match fst without_refit_search with
  | Ret st => st
  | Raise _ => []
  end.

Definition without_refit_best : frozen_trial :=
  match best_trial without_refit_study with
  | Ret t => t
  | Raise _ => mkTrial [] None
  end.

(** Number of samples of true label [t] among pairs (true, predicted). *)
Fixpoint count_true (t : label) (ys : list (label * label)) : Z :=
  match ys with
  | [] => 0
  | (a, _) :: r => (if a =? t then 1 else 0) + count_true t r
  end.

(** Number of samples predicted as their true label. *)
Fixpoint count_correct (ys : list (label * label)) : Z :=
  match ys with
  | [] => 0
  | (a, b) :: r => (if a =? b then 1 else 0) + count_correct r
  end.

(** Sum of the diagonal of a matrix. *)
Definition diagonal_sum (m : list (list Z)) : Z :=
  row_sum (map (fun i => entry m i i) (seq 0 (List.length m))).

(** Where the run keeps its artifacts. *)
Definition under_results_or_models (p : string) : Prop :=
  starts_with "results/decision_tree_experiment" p \/
  starts_with "models/decision_tree/" p.

(** * Facts about the libraries' arithmetic *)

Section Labels.

Lemma in_insert_label (x y : label) (l : list label) :
  In x (insert_label y l) <-> x = y \/ In x l.
Proof.
  induction l as [|h t IH]; simpl.
  - intuition auto.
  - destruct (y <? h) eqn:Hlt; [simpl; intuition auto|].
    destruct (y =? h) eqn:Heq.
    + apply Z.eqb_eq in Heq. subst h. simpl. intuition (subst; auto).
    + simpl. rewrite IH. intuition auto.
Qed.

Lemma in_unique_labels (x : label) (ys : list label) :
  In x (unique_labels ys) <-> In x ys.
Proof.
  induction ys as [|a r IH]; simpl; [tauto|].
  rewrite in_insert_label, IH. intuition auto.
Qed.

Lemma insert_label_sorted (y : label) (l : list label) :
  StronglySorted Z.lt l -> StronglySorted Z.lt (insert_label y l).
Proof.
  induction l as [|h t IH]; intros Hs; simpl.
  - repeat constructor.
  - inversion Hs as [|? ? Ht Hall]; subst.
    destruct (y <? h) eqn:Hlt.
    + apply Z.ltb_lt in Hlt. constructor; [assumption|].
      constructor; [assumption|].
      eapply Forall_impl; [|exact Hall]. simpl. intros; lia.
    + destruct (y =? h) eqn:Heq; [assumption|].
      apply Z.ltb_ge in Hlt. apply Z.eqb_neq in Heq.
      constructor; [auto|].
      apply Forall_forall. intros z Hz. apply (proj1 (in_insert_label z y t)) in Hz.
      destruct Hz as [->|Hz]; [lia|].
      rewrite Forall_forall in Hall. auto.
Qed.

Lemma unique_labels_sorted (ys : list label) :
  StronglySorted Z.lt (unique_labels ys).
Proof.
  induction ys; simpl; [constructor | now apply insert_label_sorted].
Qed.

Lemma sorted_lt_NoDup (l : list label) : StronglySorted Z.lt l -> NoDup l.
Proof.
  induction 1 as [|a l Hs IH Hall]; constructor; auto.
  intros Hin. rewrite Forall_forall in Hall. specialize (Hall _ Hin). lia.
Qed.

Lemma unique_labels_NoDup (ys : list label) : NoDup (unique_labels ys).
Proof. apply sorted_lt_NoDup, unique_labels_sorted. Qed.

(** The labels of binary vectors in which both classes occur. *)
Lemma unique_labels_both (ys : list label) :
  binary ys -> In 0 ys -> In 1 ys -> unique_labels ys = [0; 1].
Proof.
  intros Hb H0 H1.
  pose proof (unique_labels_sorted ys) as Hs.
  assert (Hin : forall x, In x (unique_labels ys) -> x = 0 \/ x = 1).
  { intros x Hx. apply (proj1 (in_unique_labels x ys)) in Hx.
    unfold binary in Hb. rewrite Forall_forall in Hb. exact (Hb x Hx). }
  apply (proj2 (in_unique_labels 0 ys)) in H0.
  apply (proj2 (in_unique_labels 1 ys)) in H1.
  destruct (unique_labels ys) as [|a [|b [|c r]]].
  - destruct H0.
  - simpl in *. lia.
  - inversion Hs as [|? ? _ Hall]; subst.
    inversion Hall as [|? ? Hab _]; subst.
    pose proof (Hin a (or_introl eq_refl)).
    pose proof (Hin b (or_intror (or_introl eq_refl))).
    f_equal; [lia|]. f_equal; lia.
  - exfalso.
    inversion Hs as [|? ? Hs' Hall]; subst.
    inversion Hall as [|? ? Hab Hall']; subst.
    inversion Hall' as [|? ? Hac _]; subst.
    inversion Hs' as [|? ? _ Hall'']; subst.
    inversion Hall'' as [|? ? Hbc _]; subst.
    pose proof (Hin a (or_introl eq_refl)).
    pose proof (Hin b (or_intror (or_introl eq_refl))).
    pose proof (Hin c (or_intror (or_intror (or_introl eq_refl)))).
    lia.
Qed.


Lemma binary_app (a b : list label) : binary a -> binary b -> binary (a ++ b).
Proof. unfold binary. intros. apply Forall_app. auto. Qed.

Lemma consistent_length_true (a b : list label) :
  List.length a = List.length b -> consistent_length a b = true.
Proof. unfold consistent_length. intros ->. apply Nat.eqb_refl. Qed.

Lemma fits_int64_true (l : label) : - 2 ^ 63 <= l < 2 ^ 63 -> fits_int64 l = true.
Proof.
  intros [H1 H2]. unfold fits_int64.
  apply andb_true_iff. split; [apply Z.leb_le | apply Z.ltb_lt]; assumption.
Qed.

Lemma binary_int64 (ys : list label) : binary ys -> int64_labels ys.
Proof.
  unfold binary, int64_labels. intros H. eapply Forall_impl; [|exact H].
  intros l [-> | ->]; (split; [now apply Z.leb_le | now apply Z.ltb_lt]).
Qed.

(** Vectors of one length, not empty, of 64-bit labels pass the first
    checks. *)
Lemma check_targets_ok (y_true y_pred : list label) :
  List.length y_true = List.length y_pred -> y_true <> [] ->
  int64_labels y_true -> int64_labels y_pred ->
  check_targets y_true y_pred = Ret tt.
Proof.
  intros Hlen Hne Ht Hp. unfold check_targets.
  rewrite (consistent_length_true _ _ Hlen). cbn [negb].
  destruct y_true as [|a r]; [contradiction|]. cbn [List.length Nat.eqb].
  assert (Hall : forallb fits_int64 ((a :: r) ++ y_pred) = true).
  { apply forallb_forall. intros l Hl. apply fits_int64_true.
    unfold int64_labels in Ht, Hp. rewrite Forall_forall in Ht, Hp.
    apply in_app_or in Hl. destruct Hl; auto. }
  rewrite Hall. reflexivity.
Qed.



End Labels.

Section Counting.

Lemma row_sum_map_add {A} (f g : A -> Z) (l : list A) :
  row_sum (map (fun x => f x + g x) l) = row_sum (map f l) + row_sum (map g l).
Proof. induction l; simpl; lia. Qed.

Lemma row_sum_map_zero {A} (l : list A) : row_sum (map (fun _ => 0) l) = 0.
Proof. induction l; simpl; lia. Qed.

Lemma row_sum_map_ext {A} (f g : A -> Z) (l : list A) :
  (forall x, In x l -> f x = g x) -> row_sum (map f l) = row_sum (map g l).
Proof.
  induction l as [|a r IH]; simpl; intros H; [reflexivity|].
  rewrite H by auto. rewrite IH; auto.
Qed.

(** Over labels without repetition, exactly one label equals [b]. *)
Lemma row_sum_indicator (b : label) (labels : list label) :
  NoDup labels -> In b labels ->
  row_sum (map (fun p => if b =? p then 1 else 0) labels) = 1.
Proof.
  induction 1 as [|a l Hnin Hnd IH]; intros Hin; [destruct Hin|].
  simpl. destruct Hin as [-> | Hin].
  - rewrite Z.eqb_refl.
    rewrite (row_sum_map_ext _ (fun _ => 0)).
    + rewrite row_sum_map_zero. lia.
    + intros x Hx. destruct (b =? x) eqn:E; [|reflexivity].
      apply Z.eqb_eq in E. subst x. contradiction.
  - destruct (b =? a) eqn:E.
    + apply Z.eqb_eq in E. subst a. contradiction.
    + rewrite IH by assumption. lia.
Qed.

(** Every sample is counted in exactly one cell of the matrix. *)
Lemma count_pairs_total (labels : list label) (ys : list (label * label)) :
  NoDup labels ->
  (forall a b, In (a, b) ys -> In a labels /\ In b labels) ->
  matrix_sum (map (fun t => map (fun p => count_pairs t p ys) labels) labels)
  = Z.of_nat (List.length ys).
Proof.
  intros Hnd. unfold matrix_sum. rewrite map_map.
  induction ys as [|[a b] r IH]; intros Hin.
  - simpl. rewrite (row_sum_map_ext _ (fun _ => 0)).
    + apply row_sum_map_zero.
    + intros t _. apply row_sum_map_zero.
  - destruct (Hin a b (or_introl eq_refl)) as [Ha Hb].
    cbn [count_pairs List.length].
    rewrite (row_sum_map_ext _
      (fun t => (if a =? t then 1 else 0)
                + row_sum (map (fun p => count_pairs t p r) labels))).
    + rewrite row_sum_map_add, IH.
      * rewrite (row_sum_indicator a labels Hnd Ha). lia.
      * intros a' b' H'. apply Hin. now right.
    + intros t _. rewrite row_sum_map_add. f_equal.
      destruct (a =? t); simpl.
      * apply row_sum_indicator; assumption.
      * apply row_sum_map_zero.
Qed.



Lemma count_label_nonneg (l : label) (y : list label) : 0 <= count_label l y.
Proof. induction y as [|a r IH]; simpl; [lia|]. destruct (a =? l); lia. Qed.




(** An entry of a matrix tabulated over [labels]. *)
Lemma entry_tabulate (f : label -> label -> Z) (labels : list label) (i j : nat) :
  (i < List.length labels)%nat -> (j < List.length labels)%nat ->
  entry (map (fun t => map (fun p => f t p) labels) labels) i j
  = f (nth i labels 0) (nth j labels 0).
Proof.
  intros Hi Hj. unfold entry.
  rewrite (nth_indep _ [] (map (fun p => f 0 p) labels))
    by (rewrite length_map; exact Hi).
  rewrite (map_nth (fun t => map (fun p => f t p) labels) labels 0 i).
  rewrite (nth_indep _ 0 (f (nth i labels 0) 0)) by (rewrite length_map; exact Hj).
  apply (map_nth (fun p => f (nth i labels 0) p) labels 0 j).
Qed.



Lemma confusion_matrix_total (y_true y_pred : list label) :
  List.length y_true = List.length y_pred -> y_true <> [] ->
  int64_labels y_true -> int64_labels y_pred ->
  exists cm, confusion_matrix y_true y_pred = Ret cm /\
             matrix_sum cm = Z.of_nat (List.length y_true).
Proof.
  intros Hlen Hne Hti Hpi. unfold confusion_matrix.
  rewrite (check_targets_ok _ _ Hlen Hne Hti Hpi).
  eexists; split; [reflexivity|].
  rewrite count_pairs_total.
  - rewrite length_combine, <- Hlen, Nat.min_id. reflexivity.
  - apply unique_labels_NoDup.
  - intros a b Hin. split; apply in_unique_labels, in_or_app.
    + left. eapply in_combine_l; eauto.
    + right. eapply in_combine_r; eauto.
Qed.

Lemma confusion_matrix_binary_shape (y_true y_pred : list label) :
  List.length y_true = List.length y_pred ->
  binary y_true -> binary y_pred ->
  In 0 (y_true ++ y_pred) -> In 1 (y_true ++ y_pred) ->
  exists cm, confusion_matrix y_true y_pred = Ret cm /\ has_shape 2 2 cm.
Proof.
  intros Hlen Ht Hp H0 H1. unfold confusion_matrix.
  assert (Hne : y_true <> []).
  { intros ->. destruct y_pred; [destruct H0 | discriminate]. }
  rewrite (check_targets_ok _ _ Hlen Hne (binary_int64 _ Ht) (binary_int64 _ Hp)).
  rewrite (unique_labels_both _ (binary_app _ _ Ht Hp) H0 H1).
  eexists; split; [reflexivity|].
  split; [reflexivity|]. repeat constructor.
Qed.

End Counting.

Section Quotients.






Lemma Qsquare_nonneg (b : Q) : (0 <= b * b)%Q.
Proof.
  destruct (Qlt_le_dec b 0) as [Hneg | Hpos].
  - setoid_replace (b * b)%Q with ((- b) * (- b))%Q by ring.
    apply Qmult_le_0_compat; apply (Qopp_le_compat b 0); apply Qlt_le_weak, Hneg.
  - apply Qmult_le_0_compat; assumption.
Qed.


End Quotients.

Section Sorting.

Variable before : string * Q -> string * Q -> bool.

Lemma goes_first_ge (r h : string * Q) :
  goes_first before r h = true -> (snd h <= snd r)%Q.
Proof.
  unfold goes_first. destruct (Qle_bool (snd h) (snd r)) eqn:E; [|discriminate].
  intros _. apply Qle_bool_iff, E.
Qed.

Lemma goes_first_le (r h : string * Q) :
  goes_first before r h = false -> (snd r <= snd h)%Q.
Proof.
  unfold goes_first. destruct (Qle_bool (snd h) (snd r)) eqn:E1.
  - destruct (Qle_bool (snd r) (snd h)) eqn:E2; [|discriminate].
    intros _. apply Qle_bool_iff, E2.
  - intros _. destruct (Qlt_le_dec (snd r) (snd h)) as [H | H];
      [apply Qlt_le_weak, H|].
    apply Qle_bool_iff in H. congruence.
Qed.

Lemma insert_desc_perm (r : string * Q) (rows : list (string * Q)) :
  Permutation (r :: rows) (insert_desc before r rows).
Proof.
  induction rows as [|h t IH]; simpl; [reflexivity|].
  destruct (goes_first before r h); [reflexivity|].
  rewrite perm_swap. now constructor.
Qed.

Lemma sort_values_perm (rows : list (string * Q)) :
  Permutation rows (sort_values_importance_desc before rows).
Proof.
  induction rows as [|r t IH]; simpl; [constructor|].
  rewrite <- insert_desc_perm. now constructor.
Qed.

Lemma insert_desc_sorted (r : string * Q) (rows : list (string * Q)) :
  StronglySorted importance_ge rows ->
  StronglySorted importance_ge (insert_desc before r rows).
Proof.
  induction rows as [|h t IH]; intros Hs; simpl.
  - repeat constructor.
  - inversion Hs as [|? ? Ht Hall]; subst.
    destruct (goes_first before r h) eqn:E.
    + apply goes_first_ge in E.
      constructor; [assumption|].
      constructor; [exact E|].
      eapply Forall_impl; [|exact Hall].
      unfold importance_ge. intros x Hx. eapply Qle_trans; eassumption.
    + apply goes_first_le in E.
      constructor; [auto|].
      eapply Permutation_Forall; [apply insert_desc_perm|].
      constructor; assumption.
Qed.

Lemma sort_values_sorted (rows : list (string * Q)) :
  StronglySorted importance_ge (sort_values_importance_desc before rows).
Proof.
  induction rows; simpl; [constructor | now apply insert_desc_sorted].
Qed.

End Sorting.

Section Scores.







End Scores.

Section Paths.

Lemma append_inj_l (a b c : string) : (a ++ b = a ++ c)%string -> b = c.
Proof.
  induction a as [|ch a IH]; simpl; intros H; [exact H|].
  injection H as H. auto.
Qed.

(** The five artifact paths of an experiment are five different paths. *)
Lemma artifact_paths_NoDup (ed md en : string) : NoDup (artifact_paths ed md en).
Proof.
  unfold artifact_paths.
  repeat constructor; simpl; intros H;
    repeat (destruct H as [H | H]; [|try contradiction]);
    try contradiction;
    try discriminate H;
    injection H as H; apply append_inj_l in H; discriminate H.
Qed.

End Paths.

(** ** The library functions on concrete inputs *)

Section Checks.

(* Three true positives out of four, one false positive, one false negative. *)
Example precision_two_thirds :
  precision_score [1; 0; 1; 1] [1; 1; 0; 1] = Ret (2 # 3)%Q.
Proof. reflexivity. Qed.

Example recall_all_found :
  recall_score [1; 1; 0] [1; 1; 1] = Ret 1%Q.
Proof. reflexivity. Qed.

Example fbeta_two_weighs_recall :
  fbeta_score 2 [1; 1; 0] [1; 1; 1] = Ret (10 # 11)%Q.
Proof. reflexivity. Qed.

Example precision_without_predicted_positive :
  precision_score [1; 1] [0; 0] = Ret 0%Q.
Proof. reflexivity. Qed.

Example precision_multiclass_raises :
  is_ret (precision_score [0; 1; 2] [0; 1; 2]) = false.
Proof. reflexivity. Qed.

Example fbeta_negative_beta_raises :
  is_ret (fbeta_score (-1) [1; 0] [1; 0]) = false.
Proof. reflexivity. Qed.

Example confusion_matrix_binary :
  confusion_matrix [1; 0; 1; 1] [1; 1; 0; 1] = Ret [[0; 1]; [1; 2]].
Proof. reflexivity. Qed.

Example confusion_matrix_one_class :
  confusion_matrix [1; 1; 1] [1; 1; 1] = Ret [[3]].
Proof. reflexivity. Qed.

Example confusion_matrix_three_classes :
  confusion_matrix [0; 2; 5] [2; 2; 5] = Ret [[0; 1; 0]; [0; 1; 0]; [0; 0; 1]].
Proof. reflexivity. Qed.

Example sort_values_descending :
  sort_values_importance_desc (fun _ _ => true)
    [("a", 1 # 4); ("b", 1 # 2); ("c", 1 # 4)]%Q
  = [("b", 1 # 2); ("a", 1 # 4); ("c", 1 # 4)]%Q.
Proof. reflexivity. Qed.

Example sort_values_ties_the_other_way :
  sort_values_importance_desc (fun _ _ => false)
    [("a", 1 # 4); ("b", 1 # 2); ("c", 1 # 4)]%Q
  = [("b", 1 # 2); ("c", 1 # 4); ("a", 1 # 4)]%Q.
Proof. reflexivity. Qed.

Example precision_empty_raises : is_ret (precision_score [] []) = false.
Proof. reflexivity. Qed.

Example confusion_matrix_empty_raises : is_ret (confusion_matrix [] []) = false.
Proof. reflexivity. Qed.

Example confusion_matrix_beyond_int64_raises :
  is_ret (confusion_matrix [2 ^ 63; 0] [0; 0]) = false.
Proof. reflexivity. Qed.

Example best_trial_first_of_the_greatest :
  best_trial [mkTrial [("max_depth", VInt 3)] (Some (1 # 2)%Q);
              mkTrial [("max_depth", VInt 7)] None;
              mkTrial [("max_depth", VInt 4)] (Some (3 # 4)%Q);
              mkTrial [("max_depth", VInt 9)] (Some (3 # 4)%Q)]
  = Ret (mkTrial [("max_depth", VInt 4)] (Some (3 # 4)%Q)).
Proof. reflexivity. Qed.

Example best_trial_without_value_raises :
  is_ret (best_trial [mkTrial [] None]) = false.
Proof. reflexivity. Qed.

Example mean_of_five :
  mean [Some 1%Q; Some (1 # 2)%Q; Some 1%Q; Some (1 # 2)%Q; Some 1%Q] = Some (4 # 5)%Q.
Proof. reflexivity. Qed.

Example mean_with_nan : mean [Some 1%Q; None] = None.
Proof. reflexivity. Qed.

Example setitem_keeps_order :
  setitem (setitem (setitem [] "a" (VInt 1)) "b" (VInt 2)) "a" (VInt 3)
  = [("a", VInt 3); ("b", VInt 2)].
Proof. reflexivity. Qed.

End Checks.

(** * Reasoning about the script's effects *)

Section Effects.

Variable L : Lib.

Lemma bind_inv {A B} (m : M L A) (f : A -> M L B) (w : world L) o w' :
  bind L m f w = (o, w') ->
  (exists e, m w = (Raise e, w') /\ o = Raise e) \/
  (exists a w1, m w = (Ret a, w1) /\ f a w1 = (o, w')).
Proof.
  unfold bind. destruct (m w) as [[a | e] w1]; intros H.
  - right. eauto.
  - left. inversion H; subst. eauto.
Qed.

Lemma bind_ret {A B} (m : M L A) (f : A -> M L B) (w w1 : world L) (a : A) :
  m w = (Ret a, w1) -> bind L m f w = f a w1.
Proof. unfold bind. now intros ->. Qed.

Lemma bind_raise {A B} (m : M L A) (f : A -> M L B) (w w1 : world L) (e : exn) :
  m w = (Raise e, w1) -> bind L m f w = (Raise e, w1).
Proof. unfold bind. now intros ->. Qed.

(** ** Which files a computation writes *)

Lemma writes_silent {A} (m : M L A) :
  (forall w o w', m w = (o, w') -> files w' = files w) -> writes m [].
Proof.
  intros H w o w' E. exists []. rewrite app_nil_r.
  split; [eauto|]. split; [exists []; reflexivity | reflexivity].
Qed.

Lemma writes_ret {A} (a : A) : writes (ret L a) [].
Proof. apply writes_silent. intros w o w' E. inversion E. reflexivity. Qed.

Lemma writes_raise {A} (e : exn) : writes (@raise L A e) [].
Proof. apply writes_silent. intros w o w' E. inversion E. reflexivity. Qed.

Lemma writes_lift {A} (o : outcome A) : writes (lift L o) [].
Proof. apply writes_silent. intros w o' w' E. inversion E. reflexivity. Qed.

Lemma writes_draw {A} (f : rng L -> A * rng L) : writes (draw L f) [].
Proof.
  apply writes_silent. intros w o w'. unfold draw.
  destruct (f (entropy w)). intros E. inversion E. reflexivity.
Qed.

Lemma writes_draw_outcome {A} (f : rng L -> outcome A * rng L) :
  writes (draw_outcome L f) [].
Proof.
  apply writes_silent. intros w o w'. unfold draw_outcome.
  destruct (f (entropy w)). intros E. inversion E. reflexivity.
Qed.

Lemma writes_print (line : string) : writes (print L line) [].
Proof. apply writes_silent. intros w o w' E. inversion E. reflexivity. Qed.

Lemma writes_write_file (path : string) (c : content (Model L)) :
  writes (write_file L path c) [path].
Proof.
  intros w o w'. unfold write_file. destruct (writable L path); intros E;
    inversion E; subst; clear E.
  - exists [(path, c)]. simpl. split; [reflexivity|].
    split; [exists []; reflexivity | reflexivity].
  - exists []. rewrite app_nil_r. split; [reflexivity|].
    split; [exists [path]; reflexivity | discriminate].
Qed.

Lemma writes_bind {A B} (m : M L A) (f : A -> M L B) (ps qs : list string) :
  writes m ps -> (forall a, writes (f a) qs) -> writes (bind L m f) (ps ++ qs).
Proof.
  intros Hm Hf w o w' E. apply bind_inv in E.
  destruct E as [(e & Em & ->) | (a & w1 & Em & Ef)].
  - destruct (Hm _ _ _ Em) as (new & Hfiles & [rest Hrest] & _).
    exists new. split; [assumption|].
    split; [|discriminate].
    exists (rest ++ qs)%list. rewrite Hrest, app_assoc. reflexivity.
  - destruct (Hm _ _ _ Em) as (new1 & Hfiles1 & _ & Hall1).
    specialize (Hall1 eq_refl).
    destruct (Hf a _ _ _ Ef) as (new2 & Hfiles2 & [rest Hrest] & Hall2).
    exists (new1 ++ new2)%list. rewrite Hfiles2, Hfiles1, app_assoc.
    split; [reflexivity|]. rewrite map_app, Hall1. split.
    + exists rest. rewrite Hrest, app_assoc. reflexivity.
    + intros Hr. rewrite (Hall2 Hr). reflexivity.
Qed.

Lemma writes_bind_silent {A B} (m : M L A) (f : A -> M L B) (qs : list string) :
  writes m [] -> (forall a, writes (f a) qs) -> writes (bind L m f) qs.
Proof. intros Hm Hf. apply (writes_bind m f [] qs Hm Hf). Qed.

Lemma writes_bind_cons {A B} (m : M L A) (f : A -> M L B) (p : string)
  (qs : list string) :
  writes m [p] -> (forall a, writes (f a) qs) -> writes (bind L m f) (p :: qs).
Proof. intros Hm Hf. apply (writes_bind m f [p] qs Hm Hf). Qed.

Lemma writes_nan_on_error (m : M L Q) : writes m [] -> writes (nan_on_error L m) [].
Proof.
  intros Hm. apply writes_silent. intros w o w'. unfold nan_on_error.
  destruct (m w) as [[q | e] w1] eqn:Em; intros E; inversion E; subst;
    destruct (Hm _ _ _ Em) as (new & Hfiles & [rest Hrest] & _);
    destruct new; [now rewrite app_nil_r in Hfiles | discriminate
                  | now rewrite app_nil_r in Hfiles | discriminate].
Qed.

Lemma writes_mapM {A B} (f : A -> M L B) (l : list A) :
  (forall a, writes (f a) []) -> writes (mapM L f l) [].
Proof.
  intros Hf. induction l as [|a r IH]; simpl.
  - apply writes_ret.
  - apply writes_bind_silent; [apply Hf|]. intros b.
    apply writes_bind_silent; [apply IH|]. intros bs. apply writes_ret.
Qed.

End Effects.

Create HintDb writes.
#[local] Hint Resolve writes_ret writes_raise writes_lift writes_draw
  writes_draw_outcome writes_print writes_write_file : writes.

(** One step through a sequence of the script: a silent statement, or a
    statement that writes one file. *)
Ltac writes_step :=
  first
    [ solve [auto with writes]
    | apply writes_bind_silent; [solve [auto with writes] | intros]
    | apply writes_bind_cons; [solve [auto with writes] | intros] ].

Section EffectsOfTheScript.

Variable L : Lib.

Lemma writes_suggest_int t name low high : writes (suggest_int L t name low high) [].
Proof. unfold suggest_int. repeat writes_step. Qed.

Lemma writes_suggest_float t name low high : writes (suggest_float L t name low high) [].
Proof. unfold suggest_float. repeat writes_step. Qed.

Lemma writes_suggest_categorical t name choices :
  writes (suggest_categorical L t name choices) [].
Proof. unfold suggest_categorical. repeat writes_step. Qed.

Lemma writes_make_scorer f m X y : writes (make_scorer L f m X y) [].
Proof. unfold make_scorer. repeat writes_step. Qed.

Lemma writes_fit_pipeline p X y : writes (fit_pipeline L p X y) [].
Proof. unfold fit_pipeline. repeat writes_step. Qed.

Hint Resolve writes_suggest_int writes_suggest_float writes_suggest_categorical
  writes_make_scorer writes_fit_pipeline : writes.

Lemma writes_fit_and_score est scoring fold :
  (forall m X' y', writes (scoring m X' y') []) ->
  writes (fit_and_score L est scoring fold) [].
Proof.
  intros Hs. destruct fold as [[[X_tr y_tr] X_te] y_te].
  apply writes_silent. intros w o w'. unfold fit_and_score.
  destruct (fit_pipeline L est X_tr y_tr w) as [[m | e] w1] eqn:Ef; intros E.
  - assert (Hsc : writes (bind L (nan_on_error L (scoring m X_te y_te))
                            (fun s => ret L (Scored s))) []).
    { apply writes_bind_silent; [apply writes_nan_on_error, Hs|].
      intros s. apply writes_ret. }
    destruct (Hsc _ _ _ E) as (n2 & Hf2 & [r2 Hr2] & _).
    destruct (writes_fit_pipeline est X_tr y_tr _ _ _ Ef) as (n1 & Hf1 & [r1 Hr1] & _).
    destruct n1; [|discriminate]. destruct n2; [|discriminate].
    rewrite Hf2, Hf1, !app_nil_r. reflexivity.
  - inversion E; subst.
    destruct (writes_fit_pipeline est X_tr y_tr _ _ _ Ef) as (n1 & Hf1 & [r1 Hr1] & _).
    destruct n1; [|discriminate]. rewrite Hf1, app_nil_r. reflexivity.
Qed.

Lemma writes_cross_val_score est X y cv scoring :
  (forall m X' y', writes (scoring m X' y') []) ->
  writes (cross_val_score L est X y cv scoring) [].
Proof.
  intros Hs. unfold cross_val_score.
  apply writes_bind_silent; [auto with writes|]. intros folds.
  apply writes_bind_silent.
  - apply writes_mapM. intros fold. apply writes_fit_and_score, Hs.
  - intros results. destruct (all_fits_failed results); auto with writes.
Qed.

Lemma writes_objective t X y beta : writes (objective L t X y beta) [].
Proof.
  unfold objective.
  apply writes_bind_silent; [auto with writes|]. intros [max_depth t1].
  apply writes_bind_silent; [auto with writes|]. intros [mss t2].
  apply writes_bind_silent; [auto with writes|]. intros [msl t3].
  apply writes_bind_silent; [auto with writes|]. intros [cw t4].
  apply writes_bind_silent.
  - apply writes_cross_val_score. auto with writes.
  - intros scores. apply writes_ret.
Qed.

Lemma writes_optimize st func n :
  (forall t, writes (func t) []) -> writes (optimize L st func n) [].
Proof.
  intros Hf. revert st. induction n as [|n IH]; intros st; simpl.
  - apply writes_ret.
  - apply writes_bind_silent; [apply Hf|]. intros [v t]. apply IH.
Qed.

Lemma writes_to_csv t path : writes (to_csv L t path) [path].
Proof. apply writes_write_file. Qed.

Lemma writes_save_model m path : writes (save_model L m path) [path].
Proof. apply writes_write_file. Qed.

Lemma writes_compute_and_save_metrics y_true y_pred beta path :
  writes (compute_and_save_metrics L y_true y_pred beta path) [path].
Proof. unfold compute_and_save_metrics. repeat writes_step. apply writes_to_csv. Qed.

Lemma writes_calculate_and_save_feature_importances m names path :
  writes (calculate_and_save_feature_importances L m names path) [path].
Proof.
  unfold calculate_and_save_feature_importances. repeat writes_step.
  apply writes_to_csv.
Qed.

Lemma writes_save_confusion_matrix y_true y_pred path :
  writes (save_confusion_matrix L y_true y_pred path) [path].
Proof. unfold save_confusion_matrix. repeat writes_step. apply writes_write_file. Qed.

Hint Resolve writes_objective writes_optimize writes_to_csv writes_save_model
  writes_compute_and_save_metrics writes_calculate_and_save_feature_importances
  writes_save_confusion_matrix : writes.

Lemma writes_decision_tree_experiment X_train y_train X_test y_test beta ed md en :
  writes (decision_tree_experiment L X_train y_train X_test y_test beta ed md en)
         (artifact_paths ed md en).
Proof.
  unfold decision_tree_experiment, artifact_paths, create_study.
  repeat writes_step.
Qed.

End EffectsOfTheScript.

#[local] Hint Resolve writes_suggest_int writes_suggest_float
  writes_suggest_categorical writes_make_scorer writes_fit_pipeline
  writes_objective writes_optimize writes_to_csv writes_save_model
  writes_compute_and_save_metrics writes_calculate_and_save_feature_importances
  writes_save_confusion_matrix : writes.

(** ** What a trial computes *)

Section Search.

Variable L : Lib.

Lemma suggest_int_run t name low high (w : world L) :
  suggest_int L t name low high w =
  (Ret (fst (sample_int L (trial_study t) name low high (entropy w)),
        mkLive (trial_study t)
          (setitem (suggested t) name
             (VInt (fst (sample_int L (trial_study t) name low high (entropy w)))))),
   mkWorld (files w) (stdout w)
     (snd (sample_int L (trial_study t) name low high (entropy w)))).
Proof.
  unfold suggest_int, bind, draw, ret.
  destruct (sample_int L (trial_study t) name low high (entropy w)). reflexivity.
Qed.

Lemma suggest_float_run t name low high (w : world L) :
  suggest_float L t name low high w =
  (Ret (fst (sample_float L (trial_study t) name low high (entropy w)),
        mkLive (trial_study t)
          (setitem (suggested t) name
             (VFloat (fst (sample_float L (trial_study t) name low high (entropy w)))))),
   mkWorld (files w) (stdout w)
     (snd (sample_float L (trial_study t) name low high (entropy w)))).
Proof.
  unfold suggest_float, bind, draw, ret.
  destruct (sample_float L (trial_study t) name low high (entropy w)). reflexivity.
Qed.

Lemma suggest_categorical_run t name choices (w : world L) :
  suggest_categorical L t name choices w =
  (Ret (nth (fst (sample_choice L (trial_study t) name (List.length choices) (entropy w)))
            choices VNone,
        mkLive (trial_study t)
          (setitem (suggested t) name
             (nth (fst (sample_choice L (trial_study t) name (List.length choices)
                          (entropy w)))
                  choices VNone))),
   mkWorld (files w) (stdout w)
     (snd (sample_choice L (trial_study t) name (List.length choices) (entropy w)))).
Proof.
  unfold suggest_categorical, bind, draw, ret.
  destruct (sample_choice L (trial_study t) name (List.length choices) (entropy w)).
  reflexivity.
Qed.

Lemma fit_and_score_run est beta fold (w : world L) :
  fit_and_score L est (make_scorer L (fbeta_score beta)) fold w =
  (Ret (if fit_fails L est fold (entropy w) then FitFailed
        else Scored (fst (fold_fbeta L est beta fold (entropy w)))),
   mkWorld (files w) (stdout w) (snd (fold_fbeta L est beta fold (entropy w)))).
Proof.
  destruct fold as [[[X_tr y_tr] X_te] y_te].
  unfold fit_and_score, fit_fails, nan_on_error, fit_pipeline, draw_outcome,
    make_scorer, fold_fbeta, bind, lift, ret.
  destruct (fit L est X_tr y_tr (entropy w)) as [[m | e] r1]; cbn; [|reflexivity].
  destruct (predict L m X_te) as [y_pred | e]; cbn; [|reflexivity].
  destruct (fbeta_score beta y_te y_pred); reflexivity.
Qed.

(** The fold loop of [cross_val_score] under the F-beta scorer computes
    [folds_results] and leaves the random source as [folds_fbeta] does;
    it touches nothing else. *)
Lemma mapM_folds_results est beta folds (w : world L) :
  mapM L (fit_and_score L est (make_scorer L (fbeta_score beta))) folds w =
  (Ret (folds_results L est beta folds (entropy w)),
   mkWorld (files w) (stdout w) (snd (folds_fbeta L est beta folds (entropy w)))).
Proof.
  revert w. induction folds as [|fold rest IH]; intros w.
  - destruct w. reflexivity.
  - cbn [mapM folds_fbeta folds_results].
    rewrite (bind_ret L _ _ _ _ _ (fit_and_score_run est beta fold w)).
    rewrite (bind_ret L _ _ _ _ _ (IH _)). unfold ret. cbn [files stdout entropy].
    destruct (fold_fbeta L est beta fold (entropy w)) as [s r1].
    cbn [fst snd].
    destruct (folds_fbeta L est beta rest r1) as [ss r2]. reflexivity.
Qed.

(** The scores of the folds are those of [folds_fbeta]. *)
Lemma folds_results_scores est beta folds (r : rng L) :
  map score_of (folds_results L est beta folds r) = fst (folds_fbeta L est beta folds r).
Proof.
  revert r. induction folds as [|fold rest IH]; intros r; [reflexivity|].
  cbn [folds_results folds_fbeta map].
  rewrite IH.
  assert (Hs : score_of (if fit_fails L est fold r then FitFailed
                         else Scored (fst (fold_fbeta L est beta fold r)))
               = fst (fold_fbeta L est beta fold r)).
  { destruct fold as [[[X_tr y_tr] X_te] y_te]. unfold fit_fails, fold_fbeta.
    destruct (fit L est X_tr y_tr r) as [[m | e] r1]; reflexivity. }
  rewrite Hs.
  destruct (fold_fbeta L est beta fold r) as [s r1]. cbn [fst snd].
  destruct (folds_fbeta L est beta rest r1) as [ss r2]. reflexivity.
Qed.

Lemma folds_fbeta_length est beta folds (r : rng L) :
  List.length (fst (folds_fbeta L est beta folds r)) = List.length folds.
Proof.
  revert r. induction folds as [|f rest IH]; intros r; simpl; [reflexivity|].
  destruct (fold_fbeta L est beta f r) as [s r1].
  specialize (IH r1). destruct (folds_fbeta L est beta rest r1). simpl in *.
  now rewrite IH.
Qed.

(** The mean of five scores is their sum over five. *)
Lemma mean_five (scores : list score) :
  List.length scores = 5%nat -> sum_over_five scores (mean scores).
Proof.
  intros Hlen.
  destruct scores as [|s1 [|s2 [|s3 [|s4 [|s5 [|s6 rest]]]]]]; try discriminate Hlen.
  destruct s1 as [q1|], s2 as [q2|], s3 as [q3|], s4 as [q4|], s5 as [q5|];
    cbn [mean sum_scores sum_over_five List.length];
    try (split; [reflexivity | cbn [In]; tauto]).
  exists q1, q2, q3, q4, q5. split; [reflexivity|].
  rewrite Qred_correct. change (inject_Z (Z.of_nat 5)) with 5%Q. field.
Qed.

Lemma fbeta_trial_five_folds X y beta t :
  cv_split_k_folds L ->
  fbeta_trial L X y beta 5 t -> five_fold_fbeta_trial L X y beta t.
Proof.
  intros Hcv (depth & split & leaf & weight & folds & r & Hp & Hfolds & Hv).
  exists depth, split, leaf, weight, folds, r.
  split; [exact Hp|]. split; [exact Hfolds|].
  pose proof (Hcv _ _ _ _ Hfolds) as Hlen. split; [exact Hlen|].
  rewrite Hv. apply mean_five. rewrite folds_fbeta_length. exact Hlen.
Qed.

(** The objective of one trial, as a function of the random source. *)
Lemma objective_run st X y beta (w : world L) :
  objective L (mkLive st []) X y beta w =
  (let '(depth, split, leaf, weight, r4) := sampled_candidate L st (entropy w) in
   match cv_split L 5 X y with
   | Raise e => (Raise e, mkWorld (files w) (stdout w) r4)
   | Ret folds =>
       let (scores, r5) :=
         folds_fbeta L (candidate_pipeline depth split leaf weight) beta folds r4 in
       if all_fits_failed
            (folds_results L (candidate_pipeline depth split leaf weight) beta folds r4)
       then (Raise (ValueError "All the fits failed"), mkWorld (files w) (stdout w) r5)
       else
         (Ret (mean scores, mkLive st (candidate_params depth split leaf weight)),
          mkWorld (files w) (stdout w) r5)
   end).
Proof.
  unfold objective, sampled_candidate.
  rewrite (bind_ret L _ _ _ _ _ (suggest_int_run _ _ _ _ _)).
  rewrite (bind_ret L _ _ _ _ _ (suggest_float_run _ _ _ _ _)).
  rewrite (bind_ret L _ _ _ _ _ (suggest_float_run _ _ _ _ _)).
  rewrite (bind_ret L _ _ _ _ _ (suggest_categorical_run _ _ _ _)).
  cbn [trial_study suggested entropy files stdout List.length].
  destruct (sample_int L st "max_depth" 1 50 (entropy w)) as [depth r1].
  cbn [fst snd].
  destruct (sample_float L st "min_samples_split" (1 # 1000) 1 r1) as [split r2].
  cbn [fst snd].
  destruct (sample_float L st "min_samples_leaf" (1 # 1000) (1 # 2) r2) as [leaf r3].
  cbn [fst snd].
  destruct (sample_choice L st "class_weight" 2 r3) as [i r4].
  cbn [fst snd].
  unfold cross_val_score, bind at 1, bind at 1, lift at 1.
  destruct (cv_split L 5 X y) as [folds | e]; [|reflexivity].
  unfold bind at 1. rewrite mapM_folds_results. cbn [entropy files stdout].
  unfold candidate_pipeline.
  rewrite folds_results_scores.
  destruct (folds_fbeta L _ beta folds r4) as [scores r5].
  cbn [snd].
  destruct (all_fits_failed _); reflexivity.
Qed.

(** The trial loop of the study, as [search]. *)
Lemma optimize_run st X y beta n (w : world L) :
  optimize L st (fun t => objective L t X y beta) n w =
  (let (o, r) := search L X y beta 5 st n (entropy w) in
   (o, mkWorld (files w) (stdout w) r)).
Proof.
  revert st w. induction n as [|n IH]; intros st w.
  - destruct w. reflexivity.
  - cbn [optimize search]. unfold bind. rewrite objective_run.
    destruct (sampled_candidate L st (entropy w)) as [[[[depth split] leaf] weight] r4].
    destruct (cv_split L 5 X y) as [folds | e]; [|reflexivity].
    destruct (folds_fbeta L _ beta folds r4) as [scores r5].
    destruct (all_fits_failed _); [reflexivity|].
    cbn [suggested]. rewrite IH. reflexivity.
Qed.

Lemma sampled_candidate_in_space st (r : rng L) depth split leaf weight r4 :
  sampler_in_range L ->
  sampled_candidate L st r = (depth, split, leaf, weight, r4) ->
  in_space (candidate_params depth split leaf weight).
Proof.
  intros HL. unfold sampled_candidate.
  pose proof (sample_int_range L HL st "max_depth" 1 50 r) as Hd.
  destruct (sample_int L st "max_depth" 1 50 r) as [d r1].
  pose proof (sample_float_range L HL st "min_samples_split" (1 # 1000) 1 r1) as Hs.
  destruct (sample_float L st "min_samples_split" (1 # 1000) 1 r1) as [s r2].
  pose proof (sample_float_range L HL st "min_samples_leaf" (1 # 1000) (1 # 2) r2) as Hl.
  destruct (sample_float L st "min_samples_leaf" (1 # 1000) (1 # 2) r2) as [l r3].
  pose proof (sample_choice_range L HL st "class_weight" 2%nat r3) as Hc.
  destruct (sample_choice L st "class_weight" 2 r3) as [i r']. simpl in *.
  intros E. inversion E; subst; clear E.
  exists depth, split, leaf, (nth i [VNone; VStr "balanced"] VNone).
  split; [reflexivity|].
  specialize (Hd ltac:(lia)).
  destruct (Hs ltac:(discriminate)) as [Hs1 Hs2].
  destruct (Hl ltac:(discriminate)) as [Hl1 Hl2].
  specialize (Hc ltac:(lia)).
  repeat split; try assumption; try lia.
  destruct i as [|[|i]]; simpl; auto. lia.
Qed.

(** Every trial the search adds satisfies a property that each candidate
    and its folds satisfy. *)
Lemma search_invariant (P : frozen_trial -> Prop) X y beta cv n :
  (forall st (r : rng L) depth split leaf weight r4 folds,
      sampled_candidate L st r = (depth, split, leaf, weight, r4) ->
      cv_split L cv X y = Ret folds ->
      P (mkTrial (candidate_params depth split leaf weight)
           (mean (fst (folds_fbeta L (candidate_pipeline depth split leaf weight)
                         beta folds r4))))) ->
  forall st (r : rng L) st' r',
    search L X y beta cv st n r = (Ret st', r') ->
    exists added, st' = (st ++ added)%list /\ List.length added = n /\ Forall P added.
Proof.
  intros HP. induction n as [|n IH]; intros st r st' r' E.
  - inversion E; subst. exists []. rewrite app_nil_r. repeat split. constructor.
  - cbn [search] in E.
    destruct (sampled_candidate L st r) as [[[[depth split] leaf] weight] r4] eqn:Es.
    destruct (cv_split L cv X y) as [folds | e] eqn:Ecv; [|discriminate].
    pose proof (HP _ _ _ _ _ _ _ _ Es eq_refl) as Ht.
    destruct (folds_fbeta L _ beta folds r4) as [scores r5].
    destruct (all_fits_failed _); [discriminate|].
    destruct (IH _ _ _ _ E) as (added & -> & Hlen & Hall).
    eexists (_ :: added). rewrite <- app_assoc. split; [reflexivity|].
    split; [simpl; now rewrite Hlen|]. constructor; assumption.
Qed.

End Search.

(** ** The best trial of a study *)

Section BestTrial.

Lemma best_from_in (best : frozen_trial) (bv : Q) (ts : study) :
  In (best_from best bv ts) (best :: ts).
Proof.
  revert best bv. induction ts as [|t r IH]; intros best bv; simpl; [auto|].
  destruct (trial_value t) as [v|].
  - destruct (Qle_bool v bv).
    + destruct (IH best bv) as [H | H]; auto.
    + destruct (IH t v) as [H | H]; auto.
  - destruct (IH best bv) as [H | H]; auto.
Qed.

Lemma best_from_max (best : frozen_trial) (bv : Q) (ts : study) :
  trial_value best = Some bv ->
  exists v,
    trial_value (best_from best bv ts) = Some v /\
    (bv <= v)%Q /\
    forall t x, In t ts -> trial_value t = Some x -> (x <= v)%Q.
Proof.
  revert best bv. induction ts as [|t r IH]; intros best bv Hb; simpl.
  - exists bv. split; [assumption|]. split; [apply Qle_refl|]. intros t x [].
  - destruct (trial_value t) as [v|] eqn:Ev.
    + destruct (Qle_bool v bv) eqn:Hle.
      * apply Qle_bool_iff in Hle.
        destruct (IH best bv Hb) as (m & Hm & Hbm & Hall).
        exists m. split; [assumption|]. split; [assumption|].
        intros t' x [<- | Hin] Hx.
        -- rewrite Ev in Hx. inversion Hx; subst.
           eapply Qle_trans; eassumption.
        -- eauto.
      * assert (Hlt : (bv <= v)%Q).
        { destruct (Qlt_le_dec bv v) as [H | H]; [apply Qlt_le_weak, H|].
          apply Qle_bool_iff in H. congruence. }
        destruct (IH t v Ev) as (m & Hm & Hvm & Hall).
        exists m. split; [assumption|].
        split; [eapply Qle_trans; eassumption|].
        intros t' x [<- | Hin] Hx.
        -- rewrite Ev in Hx. inversion Hx; subst. assumption.
        -- eauto.
    + destruct (IH best bv Hb) as (m & Hm & Hbm & Hall).
      exists m. split; [assumption|]. split; [assumption|].
      intros t' x [<- | Hin] Hx; [congruence | eauto].
Qed.

(** The best trial is a trial of the study that has a value, and no trial
    of the study has a greater one. *)
Lemma best_trial_max (ts : study) (best : frozen_trial) :
  best_trial ts = Ret best ->
  In best ts /\
  exists bv,
    trial_value best = Some bv /\
    forall t v, In t ts -> trial_value t = Some v -> (v <= bv)%Q.
Proof.
  induction ts as [|t r IH]; simpl; [discriminate|].
  destruct (trial_value t) as [v|] eqn:Ev.
  - intros E. inversion E; subst; clear E. split.
    + destruct (best_from_in t v r) as [H | H]; auto.
    + destruct (best_from_max t v r Ev) as (m & Hm & Hvm & Hall).
      exists m. split; [assumption|].
      intros t' x [<- | Hin] Hx; [|eauto].
      rewrite Ev in Hx. inversion Hx; subst. assumption.
  - intros E. destruct (IH E) as (Hin & bv & Hbv & Hall).
    split; [now right|]. exists bv. split; [assumption|].
    intros t' x [<- | Hin'] Hx; [congruence | eauto].
Qed.

End BestTrial.

(** ** What a computation prints *)

Section Output.

Variable L : Lib.

Lemma quiet_ret {A} (a : A) : keeps_stdout (ret L a).
Proof. intros w o w' E. inversion E. reflexivity. Qed.

Lemma quiet_lift {A} (o : outcome A) : keeps_stdout (lift L o).
Proof. intros w o' w' E. inversion E. reflexivity. Qed.

Lemma quiet_draw_outcome {A} (f : rng L -> outcome A * rng L) :
  keeps_stdout (draw_outcome L f).
Proof.
  intros w o w'. unfold draw_outcome.
  destruct (f (entropy w)). intros E. inversion E. reflexivity.
Qed.

Lemma quiet_write_file (path : string) (c : content (Model L)) :
  keeps_stdout (write_file L path c).
Proof.
  intros w o w'. unfold write_file.
  destruct (writable L path); intros E; inversion E; reflexivity.
Qed.

Lemma quiet_bind {A B} (m : M L A) (f : A -> M L B) :
  keeps_stdout m -> (forall a, keeps_stdout (f a)) -> keeps_stdout (bind L m f).
Proof.
  intros Hm Hf w o w' E. apply bind_inv in E.
  destruct E as [(e & Em & ->) | (a & w1 & Em & Ef)].
  - eapply Hm; eassumption.
  - rewrite (Hf a _ _ _ Ef). eapply Hm; eassumption.
Qed.

End Output.

Create HintDb quiet.
#[local] Hint Resolve quiet_ret quiet_lift quiet_draw_outcome quiet_write_file : quiet.

Ltac quiet_step :=
  first
    [ solve [auto with quiet]
    | apply quiet_bind; [solve [auto with quiet] | intros] ].

Section OutputOfTheScript.

Variable L : Lib.

Lemma quiet_compute_and_save_metrics y_true y_pred beta path :
  keeps_stdout (compute_and_save_metrics L y_true y_pred beta path).
Proof.
  unfold compute_and_save_metrics, to_csv. repeat quiet_step.
Qed.

Lemma quiet_calculate_and_save_feature_importances m names path :
  keeps_stdout (calculate_and_save_feature_importances L m names path).
Proof.
  unfold calculate_and_save_feature_importances, to_csv. repeat quiet_step.
Qed.

Lemma quiet_save_confusion_matrix y_true y_pred path :
  keeps_stdout (save_confusion_matrix L y_true y_pred path).
Proof. unfold save_confusion_matrix, savetxt. repeat quiet_step. Qed.

Lemma quiet_save_model m path : keeps_stdout (save_model L m path).
Proof. apply quiet_write_file. Qed.

Lemma quiet_fit_pipeline p X y : keeps_stdout (fit_pipeline L p X y).
Proof. apply quiet_draw_outcome. Qed.

End OutputOfTheScript.

#[local] Hint Resolve quiet_compute_and_save_metrics
  quiet_calculate_and_save_feature_importances quiet_save_confusion_matrix
  quiet_save_model quiet_fit_pipeline : quiet.

(** ** The experiment, step by step *)

Section Experiment.

Variable L : Lib.

Lemma bind_lift_ret {A B} (a : A) (f : A -> M L B) (w : world L) :
  bind L (lift L (Ret a)) f w = f a w.
Proof. reflexivity. Qed.

Lemma bind_lift_raise {A B} (e : exn) (f : A -> M L B) (w : world L) :
  bind L (lift L (Raise e)) f w = (Raise e, w).
Proof. reflexivity. Qed.

Lemma bind_print {B} (line : string) (f : unit -> M L B) (w : world L) :
  bind L (print L line) f w =
  f tt (mkWorld (files w) (stdout w ++ [line])%list (entropy w)).
Proof. reflexivity. Qed.

Lemma write_file_inv path (c : content (Model L)) (w : world L) o w1 :
  write_file L path c w = (o, w1) ->
  (writable L path = false /\ o = Raise (OSError path) /\ w1 = w) \/
  (writable L path = true /\ o = Ret tt /\
   w1 = mkWorld (files w ++ [(path, c)])%list (stdout w) (entropy w)).
Proof.
  unfold write_file. destruct (writable L path); intros E; inversion E; auto.
Qed.

(** The parameters of every trial of a search are a candidate's. *)
Lemma search_params X y beta cv n st (r : rng L) st' r' :
  search L X y beta cv st n r = (Ret st', r') ->
  exists added,
    st' = (st ++ added)%list /\ List.length added = n /\
    Forall (fun t => exists depth split leaf weight,
                trial_params t = candidate_params depth split leaf weight) added.
Proof.
  apply search_invariant. intros. simpl. eauto.
Qed.

(** An experiment either stops before it has written anything, or has
    searched, found a best trial, printed its line and written the
    parameters of that trial as its first file; what follows goes to the
    four other paths and prints nothing. *)
Lemma experiment_inv X_train y_train X_test y_test beta ed md en
  (w : world L) o w' :
  decision_tree_experiment L X_train y_train X_test y_test beta ed md en w = (o, w') ->
  exists new,
    files w' = (files w ++ new)%list /\
    ((new = [] /\ o <> Ret tt) \/
     (exists st r best rest,
         search L X_train y_train beta 5 [] 100 (entropy w) = (Ret st, r) /\
         best_trial st = Ret best /\
         new = ("results/" ++ ed ++ "/hyperparameters.csv",
                Csv (DataFrame_of_record (trial_params best))) :: rest /\
         prefix_of (map fst rest) (tl (artifact_paths ed md en)) /\
         stdout w' = (stdout w ++ [best_trial_line L best])%list)).
Proof.
  unfold decision_tree_experiment, create_study. intros E.
  change (bind L (ret L []) ?f w) with (f [] w) in E. cbv beta in E.
  apply bind_inv in E. rewrite optimize_run in E.
  destruct (search L X_train y_train beta 5 [] 100 (entropy w)) as [[st | e0] r] eqn:Es.
  2:{ destruct E as [(e & Em & ->) | (a & w1 & Em & _)]; [|discriminate].
      inversion Em; subst. exists []. rewrite app_nil_r. split; [reflexivity|].
      left. split; [reflexivity | discriminate]. }
  destruct E as [(e & Em & _) | (a & w1 & Em & E)]; [discriminate|].
  inversion Em; subst a w1; clear Em.
  destruct (best_trial st) as [best | e] eqn:Eb.
  2:{ rewrite bind_lift_raise in E. inversion E; subst.
      exists []. rewrite app_nil_r. split; [reflexivity|].
      left. split; [reflexivity | discriminate]. }
  rewrite bind_lift_ret, bind_print in E. cbn [files stdout entropy] in E.
  unfold best_params_of in E. rewrite Eb in E. rewrite bind_lift_ret in E.
  destruct (search_params _ _ _ _ _ _ _ _ _ Es) as (added & Hst & _ & Hall).
  simpl in Hst. subst added.
  destruct (best_trial_max st best Eb) as [Hin _].
  rewrite Forall_forall in Hall.
  destruct (Hall best Hin) as (depth & split & leaf & weight & Hp).
  rewrite Hp in E.
  change (getitem (candidate_params depth split leaf weight) "max_depth")
    with (@Ret value (VInt depth)) in E.
  change (getitem (candidate_params depth split leaf weight) "min_samples_split")
    with (@Ret value (VFloat split)) in E.
  change (getitem (candidate_params depth split leaf weight) "min_samples_leaf")
    with (@Ret value (VFloat leaf)) in E.
  change (getitem (candidate_params depth split leaf weight) "class_weight")
    with (@Ret value weight) in E.
  rewrite !bind_lift_ret in E.
  apply bind_inv in E.
  destruct E as [(e & Em & ->) | (a & w1 & Em & E)];
    apply write_file_inv in Em;
    destruct Em as [(_ & Ho & ->) | (_ & Ho & ->)]; try discriminate Ho.
  { exists []. rewrite app_nil_r. split; [reflexivity|].
    left. split; [reflexivity | discriminate]. }
  match type of E with
  | ?tail ?w0 = _ =>
      assert (Hw : writes tail (tl (artifact_paths ed md en)))
        by (unfold artifact_paths; cbn [tl]; repeat writes_step);
      assert (Hq : keeps_stdout tail) by (repeat quiet_step)
  end.
  destruct (Hw _ _ _ E) as (rest & Hfiles & Hpre & _).
  pose proof (Hq _ _ _ E) as Hout.
  cbn [files stdout] in Hfiles, Hout.
  eexists. split; [rewrite Hfiles, <- app_assoc; reflexivity|].
  right. exists st, r, best, rest. unfold best_trial_line. rewrite Hp, Hout.
  repeat split; try assumption; try reflexivity.
Qed.

End Experiment.

(** ** What a computation reads of the world *)

Section Frame.

Variable L : Lib.

Lemma world_eta (w : world L) :
  mkWorld (files w ++ [])%list (stdout w ++ [])%list (entropy w) = w.
Proof. destruct w. cbn. now rewrite !app_nil_r. Qed.

Lemma framed_ret {A} (a : A) : framed (ret L a).
Proof. intros w. unfold ret. cbn. now rewrite world_eta. Qed.

Lemma framed_lift {A} (o : outcome A) : framed (lift L o).
Proof. intros w. unfold lift. cbn. now rewrite world_eta. Qed.

Lemma framed_draw {A} (f : rng L -> A * rng L) : framed (draw L f).
Proof.
  intros w. unfold draw. cbn. destruct (f (entropy w)). cbn.
  now rewrite !app_nil_r.
Qed.

Lemma framed_draw_outcome {A} (f : rng L -> outcome A * rng L) :
  framed (draw_outcome L f).
Proof.
  intros w. unfold draw_outcome. cbn. destruct (f (entropy w)). cbn.
  now rewrite !app_nil_r.
Qed.

Lemma framed_write_file (path : string) (c : content (Model L)) :
  framed (write_file L path c).
Proof.
  intros w. unfold write_file. destruct (writable L path); cbn.
  - now rewrite app_nil_r.
  - now rewrite world_eta.
Qed.

Lemma framed_print (line : string) : framed (print L line).
Proof. intros w. unfold print. cbn. now rewrite app_nil_r. Qed.

Lemma framed_bind {A B} (m : M L A) (f : A -> M L B) :
  framed m -> (forall a, framed (f a)) -> framed (bind L m f).
Proof.
  intros Hm Hf w. unfold bind. rewrite (Hm w).
  destruct (m (mkWorld [] [] (entropy w))) as [[a | e] w0]; [|reflexivity].
  rewrite (Hf a (mkWorld _ _ _)), (Hf a w0). cbn [entropy files stdout].
  destruct (f a (mkWorld [] [] (entropy w0))) as [o w2].
  cbn [entropy files stdout]. now rewrite !app_assoc.
Qed.

Lemma framed_nan_on_error (m : M L Q) : framed m -> framed (nan_on_error L m).
Proof.
  intros Hm w. unfold nan_on_error. rewrite (Hm w).
  destruct (m (mkWorld [] [] (entropy w))) as [[a | e] w0]; reflexivity.
Qed.

Lemma framed_mapM {A B} (f : A -> M L B) (l : list A) :
  (forall a, framed (f a)) -> framed (mapM L f l).
Proof.
  intros Hf. induction l as [|a r IH]; cbn [mapM].
  - apply framed_ret.
  - apply framed_bind; [apply Hf|]. intros b.
    apply framed_bind; [apply IH|]. intros bs. apply framed_ret.
Qed.

End Frame.

Create HintDb framed.
#[local] Hint Resolve framed_ret framed_lift framed_draw framed_draw_outcome
  framed_write_file framed_print : framed.

Ltac framed_step :=
  first
    [ solve [auto with framed]
    | apply framed_bind; [solve [auto with framed] | intros] ].

Section FrameOfTheScript.

Variable L : Lib.

Lemma framed_optimize st X y beta n :
  framed (optimize L st (fun t => objective L t X y beta) n).
Proof.
  intros w. rewrite !optimize_run. cbn [entropy files stdout].
  destruct (search L X y beta 5 st n (entropy w)). now rewrite !app_nil_r.
Qed.

Lemma framed_compute_and_save_metrics y_true y_pred beta path :
  framed (compute_and_save_metrics L y_true y_pred beta path).
Proof. unfold compute_and_save_metrics, to_csv. repeat framed_step. Qed.

Lemma framed_calculate_and_save_feature_importances m names path :
  framed (calculate_and_save_feature_importances L m names path).
Proof.
  unfold calculate_and_save_feature_importances, to_csv. repeat framed_step.
Qed.

Lemma framed_save_confusion_matrix y_true y_pred path :
  framed (save_confusion_matrix L y_true y_pred path).
Proof. unfold save_confusion_matrix, savetxt. repeat framed_step. Qed.

Lemma framed_decision_tree_experiment X_train y_train X_test y_test beta ed md en :
  framed (decision_tree_experiment L X_train y_train X_test y_test beta ed md en).
Proof.
  unfold decision_tree_experiment, create_study, fit_pipeline, save_model, dump, to_csv.
  pose proof framed_optimize. pose proof framed_compute_and_save_metrics.
  pose proof framed_calculate_and_save_feature_importances.
  pose proof framed_save_confusion_matrix.
  repeat framed_step.
Qed.

End FrameOfTheScript.

Section SearchFacts.

Variable L : Lib.

Lemma search_in_space X y beta cv n st (r : rng L) st' r' :
  sampler_in_range L ->
  search L X y beta cv st n r = (Ret st', r') ->
  exists added,
    st' = (st ++ added)%list /\ List.length added = n /\
    Forall (fun t => in_space (trial_params t)) added.
Proof.
  intros HL. apply search_invariant. intros. simpl.
  eapply sampled_candidate_in_space; eassumption.
Qed.

Lemma search_fbeta X y beta cv n st (r : rng L) st' r' :
  search L X y beta cv st n r = (Ret st', r') ->
  exists added,
    st' = (st ++ added)%list /\ List.length added = n /\
    Forall (fbeta_trial L X y beta cv) added.
Proof.
  apply search_invariant. intros st0 r0 depth split leaf weight r4 folds Hs Hcv.
  exists depth, split, leaf, weight, folds, r4. simpl. auto.
Qed.

(** A study that [optimize] returns is the study [search] returns. *)
Lemma optimize_inv st X y beta n (w : world L) st' w1 :
  optimize L st (fun t => objective L t X y beta) n w = (Ret st', w1) ->
  search L X y beta 5 st n (entropy w) = (Ret st', entropy w1) /\
  files w1 = files w /\ stdout w1 = stdout w.
Proof.
  rewrite optimize_run.
  destruct (search L X y beta 5 st n (entropy w)) as [o r].
  intros E. inversion E; subst. auto.
Qed.

Lemma optimize_of_search st X y beta n (w : world L) st' r :
  search L X y beta 5 st n (entropy w) = (Ret st', r) ->
  optimize L st (fun t => objective L t X y beta) n w =
  (Ret st', mkWorld (files w) (stdout w) r).
Proof. intros E. rewrite optimize_run, E. reflexivity. Qed.

(** The run is its first lines followed by the four calls of the table. *)
Lemma run_decision_tree_calls (filepath : string) (w : world L) :
  run_decision_tree L filepath w =
  bind L (load_datasets L filepath)
    (fun '(d1, d2, d3, d4) =>
       run_calls L (map (experiment_call L) (experiment_table d1 d2 d3 d4))) w.
Proof.
  unfold run_decision_tree, load_datasets, bind, lift, ret.
  destruct (load_data L filepath w) as [[df | e] w1]; [|reflexivity].
  destruct (create_experiment1_dataset L df) as [[[[X1 X1t] y1] y1t] | e];
    [|reflexivity].
  destruct (create_experiment2_dataset L df) as [[[[X2 X2t] y2] y2t] | e];
    [|reflexivity].
  destruct (create_experiment3_dataset L df) as [[[[X3 X3t] y3] y3t] | e];
    [|reflexivity].
  destruct (create_experiment4_dataset L df) as [[[[X4 X4t] y4] y4t] | e];
    [|reflexivity].
  reflexivity.
Qed.

(** Calls before a call that raises have run; calls after it never run. *)
Lemma run_calls_raise (pre : list (M L unit)) (c : M L unit) (post : list (M L unit))
  (w w1 w2 : world L) (e : exn) :
  run_calls L pre w = (Ret tt, w1) ->
  c w1 = (Raise e, w2) ->
  run_calls L (pre ++ c :: post) w = (Raise e, w2).
Proof.
  revert w. induction pre as [|a pre IH]; intros w Hpre Hc.
  - inversion Hpre; subst. cbn [app run_calls].
    destruct post; [exact Hc | now apply bind_raise].
  - assert (Hstep : exists w0, a w = (Ret tt, w0) /\ run_calls L pre w0 = (Ret tt, w1)).
    { destruct pre as [|b pre'].
      - exists w1. split; [exact Hpre | reflexivity].
      - cbn [run_calls] in Hpre. apply bind_inv in Hpre.
        destruct Hpre as [(e' & _ & He) | (u & w0 & Ha & Hrest)]; [discriminate|].
        destruct u. eauto. }
    destruct Hstep as (w0 & Ha & Hrest).
    specialize (IH w0 Hrest Hc).
    change ((a :: pre) ++ c :: post)%list with (a :: (pre ++ c :: post))%list.
    cbn [run_calls]. destruct (pre ++ c :: post)%list eqn:El.
    + destruct pre; discriminate.
    + rewrite (bind_ret L _ _ _ _ _ Ha). exact IH.
Qed.

Lemma writes_run_calls (calls : list (M L unit)) (paths : list (list string)) :
  Forall2 (fun c ps => writes c ps) calls paths ->
  writes (run_calls L calls) (List.concat paths).
Proof.
  induction 1 as [|c ps calls paths Hc Hrest IH].
  - apply writes_ret.
  - cbn [List.concat]. destruct calls as [|c' calls'].
    + inversion Hrest; subst. cbn [List.concat run_calls]. now rewrite app_nil_r.
    + change (run_calls L (c :: c' :: calls'))
        with (bind L c (fun _ => run_calls L (c' :: calls'))).
      apply writes_bind; [exact Hc|]. intros _. exact IH.
Qed.

Lemma writes_experiment_call (x : string * dataset L) :
  writes (experiment_call L x) (experiment_paths (fst x)).
Proof.
  destruct x as [number [[[X_train X_test] y_train] y_test]].
  apply writes_decision_tree_experiment.
Qed.

End SearchFacts.

Section Runs.

Variable L : Lib.

Lemma writes_load_data (filepath : string) : writes (load_data L filepath) [].
Proof. unfold load_data. repeat writes_step. Qed.

Lemma writes_load_datasets (filepath : string) : writes (load_datasets L filepath) [].
Proof.
  unfold load_datasets. pose proof writes_load_data. repeat writes_step.
Qed.

Lemma writes_experiment_calls (xs : list (string * dataset L)) :
  writes (run_calls L (map (experiment_call L) xs))
         (flat_map experiment_paths (map fst xs)).
Proof.
  rewrite flat_map_concat_map. apply writes_run_calls.
  induction xs as [|x xs IH]; cbn [map]; constructor; [|exact IH].
  apply writes_experiment_call.
Qed.

Lemma disjoint_by_eqb (l1 l2 : list string) :
  forallb (fun p => negb (existsb (String.eqb p) l2)) l1 = true ->
  forall p, In p l1 -> ~ In p l2.
Proof.
  intros H p H1 H2. rewrite forallb_forall in H. specialize (H p H1).
  apply negb_true_iff in H.
  assert (Ht : existsb (String.eqb p) l2 = true).
  { apply existsb_exists. exists p. split; [exact H2 | apply String.eqb_refl]. }
  congruence.
Qed.

(** In the table of the run, the paths of the experiments after a given
    one are none of the paths of that experiment or of those before it. *)
Lemma later_paths_disjoint (d1 d2 d3 d4 : dataset L)
  (pre : list (string * dataset L)) cur post :
  experiment_table d1 d2 d3 d4 = (pre ++ cur :: post)%list ->
  forall p,
    In p (flat_map experiment_paths (map fst post)) ->
    ~ In p (flat_map experiment_paths (map fst pre) ++ experiment_paths (fst cur))%list.
Proof.
  intros Ht. apply disjoint_by_eqb. unfold experiment_table in Ht.
  destruct pre as [|a pre];
    [|destruct pre as [|b pre];
      [|destruct pre as [|c pre]; [|destruct pre as [|d pre]]]];
    cbn [app] in Ht; injection Ht as; subst;
    try (vm_compute; reflexivity).
  destruct pre; discriminate.
Qed.

End Runs.

(** * The properties of the specification *)

(** A concrete vector of zeros and ones is binary. *)
Ltac binary_vector :=
  unfold binary;
  repeat (apply Forall_cons; [first [now left | now right]|]);
  apply Forall_nil.

(** C1. [decision_tree_experiment] writes its files after those already
    there, to the five artifact paths of the experiment in their order and
    to no other path: all five when it returns, a first part of them when
    it raises. The five paths are pairwise different. *)
Theorem experiment_writes_five_artifacts (L : Lib)
  (X_train : Frame L) (y_train : list Z) (X_test : Frame L) (y_test : list Z)
  (beta : Q) (experiment_dictionary model_directory experiment_number : string)
  (w : world L) (o : outcome unit) (w' : world L) :
  decision_tree_experiment L X_train y_train X_test y_test beta
    experiment_dictionary model_directory experiment_number w = (o, w') ->
  let paths := artifact_paths experiment_dictionary model_directory experiment_number in
  exists new,
    files w' = (files w ++ new)%list /\
    prefix_of (map fst new) paths /\
    (o = Ret tt -> map fst new = paths /\ List.length new = 5%nat) /\
    NoDup paths.
Proof.
  intros E paths.
  destruct (writes_decision_tree_experiment L _ _ _ _ _ _ _ _ _ _ _ E)
    as (new & Hfiles & Hpre & Hall).
  exists new. split; [exact Hfiles|]. split; [exact Hpre|]. split.
  - intros ->. specialize (Hall eq_refl). split; [exact Hall|].
    rewrite <- (length_map fst), Hall. reflexivity.
  - apply artifact_paths_NoDup.
Qed.

Lemma experiment_writes_five_artifacts_example :
  exists new,
    files (snd (small_experiment 0)) = (files (small_world [] 0) ++ new)%list /\
    prefix_of (map fst new) (artifact_paths "demo" "tree" "1") /\
    (Ret tt = Ret tt ->
     map fst new = artifact_paths "demo" "tree" "1" /\ List.length new = 5%nat) /\
    NoDup (artifact_paths "demo" "tree" "1").
Proof.
  apply (experiment_writes_five_artifacts (small_lib [])
           small_frame small_frame small_frame small_frame 2 "demo" "tree" "1"
           (small_world [] 0) (Ret tt) (snd (small_experiment 0))).
  vm_compute. reflexivity.
Defined.





(** C8. When there is one importance per feature name,
    [calculate_and_save_feature_importances] returns and writes to its
    path the table of columns Feature and Importance whose rows are
    exactly the given (feature, importance) pairs, each as often as given,
    in descending order of importance. *)
Theorem feature_importances_table_sorted (L : Lib) (model : Model L)
  (feature_names : list string) (save_path : string) (w : world L) :
  List.length feature_names = List.length (feature_importances_ L model) ->
  writable L save_path = true ->
  exists rows,
    calculate_and_save_feature_importances L model feature_names save_path w =
      (Ret tt,
       mkWorld
         (files w ++
          [(save_path,
            Csv {| df_columns := ["Feature"; "Importance"];
                   df_rows := map (fun r => [VStr (fst r); VFloat (snd r)]) rows |})])%list
         (stdout w) (entropy w)) /\
    Permutation (combine feature_names (feature_importances_ L model)) rows /\
    StronglySorted (fun a b => (snd b <= snd a)%Q) rows.
Proof.
  intros Hlen Hw.
  exists (sort_values_importance_desc
            (tie_order L (combine feature_names (feature_importances_ L model)))
            (combine feature_names (feature_importances_ L model))).
  split; [|split].
  - unfold calculate_and_save_feature_importances, importances_frame.
    rewrite Hlen, Nat.eqb_refl.
    unfold bind, lift, to_csv, write_file. simpl. rewrite Hw. reflexivity.
  - apply sort_values_perm.
  - apply sort_values_sorted.
Qed.

(** C9. For label vectors of one length with at least one sample, whose
    labels are 64-bit integers, [save_confusion_matrix] returns and the
    entries of the matrix it writes add up to the number of samples; when
    the vectors are binary and both classes occur in them, the matrix has
    two rows of two entries. (The file can be created; on empty vectors
    the call raises.) *)
Theorem confusion_matrix_file_shape_and_sum (L : Lib) (y_true y_pred : list Z)
  (filename : string) (w : world L) :
  List.length y_true = List.length y_pred ->
  y_true <> [] ->
  int64_labels y_true -> int64_labels y_pred ->
  writable L filename = true ->
  exists cm,
    save_confusion_matrix L y_true y_pred filename w =
      (Ret tt,
       mkWorld (files w ++ [(filename, Txt cm)])%list (stdout w) (entropy w)) /\
    matrix_sum cm = Z.of_nat (List.length y_true) /\
    (binary y_true -> binary y_pred ->
     In 0 (y_true ++ y_pred) -> In 1 (y_true ++ y_pred) ->
     has_shape 2 2 cm).
Proof.
  intros Hlen Hne Hti Hpi Hw.
  destruct (confusion_matrix_total y_true y_pred Hlen Hne Hti Hpi) as (cm & Hcm & Hsum).
  exists cm. split; [|split].
  - unfold save_confusion_matrix. rewrite Hcm.
    unfold bind, lift, savetxt, write_file. simpl. rewrite Hw. reflexivity.
  - exact Hsum.
  - intros Ht Hp H0 H1.
    destruct (confusion_matrix_binary_shape y_true y_pred Hlen Ht Hp H0 H1)
      as (cm' & Hcm' & Hshape).
    rewrite Hcm in Hcm'. inversion Hcm'; subst. exact Hshape.
Qed.

Lemma feature_importances_table_sorted_example :
  exists rows,
    calculate_and_save_feature_importances (small_lib [])
      (candidate_pipeline 3 1 (1 # 2) VNone) ["a"; "b"; "c"] "importances.csv"
      (small_world [] 0) =
      (Ret tt,
       @mkWorld (small_lib [])
         [("importances.csv",
           Csv {| df_columns := ["Feature"; "Importance"];
                  df_rows := map (fun r => [VStr (fst r); VFloat (snd r)]) rows |})]
         [] 0) /\
    Permutation [("a", 1 # 4); ("b", 1 # 2); ("c", 1 # 4)]%Q rows /\
    StronglySorted (fun a b => (snd b <= snd a)%Q) rows.
Proof.
  apply (feature_importances_table_sorted (small_lib [])
           (candidate_pipeline 3 1 (1 # 2) VNone) ["a"; "b"; "c"] "importances.csv"
           (small_world [] 0)).
  - reflexivity.
  - reflexivity.
Defined.

Lemma confusion_matrix_file_shape_and_sum_example :
  exists cm,
    save_confusion_matrix (small_lib []) [1; 0; 1; 1] [1; 1; 0; 1] "matrix.txt"
      (small_world [] 0) =
      (Ret tt, @mkWorld (small_lib []) [("matrix.txt", Txt cm)] [] 0) /\
    matrix_sum cm = 4 /\ has_shape 2 2 cm.
Proof.
  destruct (confusion_matrix_file_shape_and_sum (small_lib [])
              [1; 0; 1; 1] [1; 1; 0; 1] "matrix.txt" (small_world [] 0)
              eq_refl ltac:(discriminate)
              (binary_int64 [1; 0; 1; 1] ltac:(binary_vector))
              (binary_int64 [1; 1; 0; 1] ltac:(binary_vector))
              eq_refl) as (cm & Hrun & Hsum & Hshape).
  exists cm. split; [exact Hrun|]. split; [exact Hsum|].
  apply Hshape.
  - binary_vector.
  - binary_vector.
  - simpl. auto.
  - simpl. auto.
Defined.

(** C10. When the sampler keeps to the ranges it is asked for, every trial
    of a study that the search returns has exactly the four parameters
    max_depth (an integer from 1 to 50), min_samples_split (from 0.001 to
    1), min_samples_leaf (from 0.001 to 0.5) and class_weight (None or
    "balanced"); and whatever an experiment writes to
    hyperparameters.csv is one row of these four fields within these
    bounds. *)
Theorem hyperparameters_in_search_space (L : Lib)
  (X_train : Frame L) (y_train : list Z) (X_test : Frame L) (y_test : list Z)
  (beta : Q) (experiment_dictionary model_directory experiment_number : string)
  (w : world L) (o : outcome unit) (w' : world L) :
  sampler_in_range L ->
  decision_tree_experiment L X_train y_train X_test y_test beta
    experiment_dictionary model_directory experiment_number w = (o, w') ->
  (forall n st w1,
      optimize L [] (fun t => objective L t X_train y_train beta) n w = (Ret st, w1) ->
      Forall (fun t => in_space (trial_params t)) st) /\
  exists new,
    files w' = (files w ++ new)%list /\
    forall c,
      In ("results/" ++ experiment_dictionary ++ "/hyperparameters.csv", c) new ->
      exists d,
        in_space d /\
        c = Csv {| df_columns := ["max_depth"; "min_samples_split";
                                  "min_samples_leaf"; "class_weight"];
                   df_rows := [map snd d] |}.
Proof.
  intros HL E. split.
  - intros n st w1 Hopt. apply optimize_inv in Hopt. destruct Hopt as [Hs _].
    destruct (search_in_space L _ _ _ _ _ _ _ _ _ HL Hs) as (added & -> & _ & Hall).
    exact Hall.
  - destruct (experiment_inv L _ _ _ _ _ _ _ _ _ _ _ E)
      as (new & Hfiles & [[-> _] | (st & r & best & rest & Hs & Hb & -> & Hpre & _)]).
    + exists []. split; [exact Hfiles|]. intros c [].
    + eexists. split; [exact Hfiles|]. intros c [Hc | Hc].
      * inversion Hc; subst c; clear Hc.
        destruct (search_in_space L _ _ _ _ _ _ _ _ _ HL Hs) as (added & -> & _ & Hall).
        destruct (best_trial_max _ _ Hb) as [Hin _].
        rewrite Forall_forall in Hall. specialize (Hall best Hin).
        exists (trial_params best). split; [exact Hall|].
        destruct Hall as (depth & split & leaf & weight & -> & _). reflexivity.
      * exfalso. apply (in_map fst) in Hc. cbn [fst] in Hc.
        destruct Hpre as [more Hpre].
        pose proof (artifact_paths_NoDup experiment_dictionary model_directory
                      experiment_number) as Hnd.
        change (artifact_paths experiment_dictionary model_directory experiment_number)
          with (("results/" ++ experiment_dictionary ++ "/hyperparameters.csv")
                  :: tl (artifact_paths experiment_dictionary model_directory
                           experiment_number)) in Hnd.
        apply NoDup_cons_iff in Hnd. destruct Hnd as [Hnotin _].
        apply Hnotin. rewrite Hpre. apply in_or_app. now left.
Qed.

Lemma small_sampler_in_range (blocked : list string) :
  sampler_in_range (small_lib blocked).
Proof.
  constructor; cbn.
  - intros h n lo hi r Hle. unfold small_sample_int. cbn.
    pose proof (Z.mod_pos_bound r (hi - lo + 1) ltac:(lia)). lia.
  - intros h n lo hi r Hle. unfold small_sample_float. cbn.
    destruct (Z.even r); split; try apply Qle_refl; assumption.
  - intros h n k r Hk. unfold small_sample_choice. cbn.
    pose proof (Z.mod_pos_bound r (Z.of_nat k) ltac:(lia)). lia.
Qed.

Lemma hyperparameters_in_search_space_example :
  (forall n st w1,
      optimize (small_lib []) [] (fun t => objective (small_lib []) t small_frame small_frame 2)
        n (small_world [] 0) = (Ret st, w1) ->
      Forall (fun t => in_space (trial_params t)) st) /\
  exists new,
    files (snd (small_experiment 0)) = (files (small_world [] 0) ++ new)%list /\
    forall c,
      In ("results/" ++ "demo" ++ "/hyperparameters.csv", c) new ->
      exists d,
        in_space d /\
        c = Csv {| df_columns := ["max_depth"; "min_samples_split";
                                  "min_samples_leaf"; "class_weight"];
                   df_rows := [map snd d] |}.
Proof.
  apply (hyperparameters_in_search_space (small_lib [])
           small_frame small_frame small_frame small_frame 2 "demo" "tree" "1"
           (small_world [] 0) (fst (small_experiment 0)) (snd (small_experiment 0))).
  - apply small_sampler_in_range.
  - unfold small_experiment. apply surjective_pairing.
Defined.

Lemma small_cv_split_k_folds (blocked : list string) :
  cv_split_k_folds (small_lib blocked).
Proof.
  intros k X y folds E. cbn in E. inversion E. apply repeat_length.
Qed.

(** C3. An experiment that returns has run the search; every trial of the
    study has as value the F-beta scores (with the experiment's beta) of
    the five folds of the scaler-and-tree pipeline with the trial's
    parameters, added up and divided by five (NaN when a fold has no
    score); the best trial is a trial of the study
    whose value no other trial exceeds; its value is what the line
    "Best trial recall: ..." prints and its parameters are what
    hyperparameters.csv receives. The F-beta score of a fold is not its
    recall: on a fold with one false positive and no false negative F-2 is
    15/16 and recall is 1. *)
Theorem search_maximizes_mean_fbeta (L : Lib)
  (X_train : Frame L) (y_train : list Z) (X_test : Frame L) (y_test : list Z)
  (beta : Q) (experiment_dictionary model_directory experiment_number : string)
  (w w' : world L) :
  cv_split_k_folds L ->
  decision_tree_experiment L X_train y_train X_test y_test beta
    experiment_dictionary model_directory experiment_number w = (Ret tt, w') ->
  (exists st w1 best bv rest,
      optimize L [] (fun t => objective L t X_train y_train beta) 100 w = (Ret st, w1) /\
      Forall (five_fold_fbeta_trial L X_train y_train beta) st /\
      best_trial st = Ret best /\
      In best st /\
      trial_value best = Some bv /\
      (forall t v, In t st -> trial_value t = Some v -> (v <= bv)%Q) /\
      stdout w' =
        (stdout w ++ [("Best trial recall: " ++ repr_float L bv
                       ++ ", Params: " ++ repr_dict L (trial_params best))%string])%list /\
      files w' =
        (files w ++
         (("results/" ++ experiment_dictionary ++ "/hyperparameters.csv")%string,
          Csv (DataFrame_of_record (trial_params best))) :: rest)%list) /\
  fst (fold_fbeta (small_lib []) (candidate_pipeline 2 1 (1 # 2) VNone) 2 small_fold 0)
    = Some (15 # 16)%Q /\
  fst (fold_recall (small_lib []) (candidate_pipeline 2 1 (1 # 2) VNone) small_fold 0)
    = Some 1%Q.
Proof.
  intros Hcv E. split; [|split; reflexivity].
  destruct (experiment_inv L _ _ _ _ _ _ _ _ _ _ _ E)
    as (new & Hfiles & [[_ Ho] | (st & r & best & rest & Hs & Hb & -> & _ & Hout)]).
  { now contradiction Ho. }
  destruct (best_trial_max _ _ Hb) as (Hin & bv & Hbv & Hmax).
  destruct (search_fbeta L _ _ _ _ _ _ _ _ _ Hs) as (added & Hst & _ & Hall).
  simpl in Hst. subst added.
  exists st, (mkWorld (files w) (stdout w) r), best, bv, rest.
  split; [apply optimize_of_search; exact Hs|].
  split.
  { eapply Forall_impl; [|exact Hall]. intros t Ht.
    apply (fbeta_trial_five_folds L _ _ _ _ Hcv), Ht. }
  split; [exact Hb|]. split; [exact Hin|].
  split; [exact Hbv|]. split; [exact Hmax|].
  split; [|exact Hfiles].
  rewrite Hout. unfold best_trial_line. rewrite Hbv. reflexivity.
Qed.

Lemma search_maximizes_mean_fbeta_example :
  (exists st w1 best bv rest,
      optimize (small_lib []) []
        (fun t => objective (small_lib []) t small_frame small_frame 2) 100
        (small_world [] 1) = (Ret st, w1) /\
      Forall (five_fold_fbeta_trial (small_lib []) small_frame small_frame 2) st /\
      best_trial st = Ret best /\
      In best st /\
      trial_value best = Some bv /\
      (forall t v, In t st -> trial_value t = Some v -> (v <= bv)%Q) /\
      stdout (snd (small_experiment 1)) =
        (stdout (small_world [] 1) ++
         [("Best trial recall: " ++ repr_float (small_lib []) bv
           ++ ", Params: " ++ repr_dict (small_lib []) (trial_params best))%string])%list /\
      files (snd (small_experiment 1)) =
        (files (small_world [] 1) ++
         (("results/" ++ "demo" ++ "/hyperparameters.csv")%string,
          Csv (DataFrame_of_record (trial_params best))) :: rest)%list) /\
  fst (fold_fbeta (small_lib []) (candidate_pipeline 2 1 (1 # 2) VNone) 2 small_fold 0)
    = Some (15 # 16)%Q /\
  fst (fold_recall (small_lib []) (candidate_pipeline 2 1 (1 # 2) VNone) small_fold 0)
    = Some 1%Q.
Proof.
  apply (search_maximizes_mean_fbeta (small_lib [])
           small_frame small_frame small_frame small_frame 2 "demo" "tree" "1"
           (small_world [] 1) (snd (small_experiment 1))).
  - apply small_cv_split_k_folds.
  - vm_compute. reflexivity.
Defined.



(** C4, as the script has it. Nothing in the script seeds the sampler or
    the tree, so equal inputs do not give equal outputs: from two states of
    the random source the same experiment on the same data saves two
    different sets of best parameters. *)
Lemma experiment_depends_on_random_source :
  fst (small_experiment 0) = Ret tt /\
  fst (small_experiment 1) = Ret tt /\
  hd_error (files (snd (small_experiment 0))) =
    Some ("results/demo/hyperparameters.csv",
          Csv (DataFrame_of_record (candidate_params 1 1 (1 # 1000) (VStr "balanced")))) /\
  hd_error (files (snd (small_experiment 1))) =
    Some ("results/demo/hyperparameters.csv",
          Csv (DataFrame_of_record (candidate_params 11 1 (1 # 1000) (VStr "balanced")))) /\
  files (snd (small_experiment 0)) <> files (snd (small_experiment 1)).
Proof.
  split; [vm_compute; reflexivity|].
  split; [vm_compute; reflexivity|].
  split; [vm_compute; reflexivity|].
  split; [vm_compute; reflexivity|].
  intros H. apply (f_equal (@hd_error _)) in H. vm_compute in H. discriminate H.
Qed.

(** C4, amended. An experiment is a function of its arguments and of the
    state of the random source: from two worlds with the same random
    source it ends the same way, adds the same files and the same lines,
    and leaves the same random source, whatever was written or printed
    before. *)
Theorem experiment_deterministic_given_random_source (L : Lib)
  (X_train : Frame L) (y_train : list Z) (X_test : Frame L) (y_test : list Z)
  (beta : Q) (experiment_dictionary model_directory experiment_number : string)
  (w1 w2 : world L) :
  entropy w1 = entropy w2 ->
  exists o new lines r,
    decision_tree_experiment L X_train y_train X_test y_test beta
      experiment_dictionary model_directory experiment_number w1 =
      (o, mkWorld (files w1 ++ new)%list (stdout w1 ++ lines)%list r) /\
    decision_tree_experiment L X_train y_train X_test y_test beta
      experiment_dictionary model_directory experiment_number w2 =
      (o, mkWorld (files w2 ++ new)%list (stdout w2 ++ lines)%list r).
Proof.
  intros He.
  pose proof (framed_decision_tree_experiment L X_train y_train X_test y_test beta
                experiment_dictionary model_directory experiment_number) as Hf.
  rewrite (Hf w1), (Hf w2), He.
  destruct (decision_tree_experiment L X_train y_train X_test y_test beta
              experiment_dictionary model_directory experiment_number
              (mkWorld [] [] (entropy w2))) as [o w0].
  exists o, (files w0), (stdout w0), (entropy w0). split; reflexivity.
Qed.

Lemma experiment_deterministic_given_random_source_example :
  exists o new lines r,
    decision_tree_experiment (small_lib [])
      small_frame small_frame small_frame small_frame 2 "demo" "tree" "1"
      (@mkWorld (small_lib []) [] ["earlier line"] 7) =
      (o, @mkWorld (small_lib []) ([] ++ new)%list (["earlier line"] ++ lines)%list r) /\
    decision_tree_experiment (small_lib [])
      small_frame small_frame small_frame small_frame 2 "demo" "tree" "1"
      (@mkWorld (small_lib []) [("old.txt", Txt [[1]])] [] 7) =
      (o, @mkWorld (small_lib []) ([("old.txt", Txt [[1]])] ++ new)%list
            ([] ++ lines)%list r).
Proof.
  apply (experiment_deterministic_given_random_source (small_lib [])
           small_frame small_frame small_frame small_frame 2 "demo" "tree" "1"
           (@mkWorld (small_lib []) [] ["earlier line"] 7)
           (@mkWorld (small_lib []) [("old.txt", Txt [[1]])] [] 7)).
  reflexivity.
Defined.

(** C5. [run_decision_tree] handles no exception. When the table has been
    loaded and split, the experiments before some experiment of the run
    have returned and that experiment raises, the run raises the same
    exception in the same world: every file of the earlier experiments is
    there, the failing experiment has written a first part of its own
    files, and no path of a later experiment has been written to. *)
Theorem failure_aborts_remaining_experiments (L : Lib) (filepath : string)
  (w w0 w_prev w_fail : world L) (d1 d2 d3 d4 : dataset L)
  (pre : list (string * dataset L)) (cur : string * dataset L)
  (post : list (string * dataset L)) (e : exn) :
  load_datasets L filepath w = (Ret (d1, d2, d3, d4), w0) ->
  experiment_table d1 d2 d3 d4 = (pre ++ cur :: post)%list ->
  run_calls L (map (experiment_call L) pre) w0 = (Ret tt, w_prev) ->
  experiment_call L cur w_prev = (Raise e, w_fail) ->
  run_decision_tree L filepath w = (Raise e, w_fail) /\
  exists done partial,
    files w_prev = (files w ++ done)%list /\
    map fst done = flat_map experiment_paths (map fst pre) /\
    files w_fail = (files w_prev ++ partial)%list /\
    prefix_of (map fst partial) (experiment_paths (fst cur)) /\
    forall x p,
      In x post -> In p (experiment_paths (fst x)) ->
      ~ In p (map fst (done ++ partial)).
Proof.
  intros Hload Ht Hpre Hcur. split.
  - rewrite run_decision_tree_calls, (bind_ret L _ _ _ _ _ Hload).
    fold (experiment_table d1 d2 d3 d4). rewrite Ht, map_app. cbn [map].
    eapply run_calls_raise; eassumption.
  - destruct (writes_load_datasets L filepath _ _ _ Hload) as (n0 & Hf0 & [r0 Hr0] & _).
    destruct n0; [|discriminate]. rewrite app_nil_r in Hf0.
    destruct (writes_experiment_calls L pre _ _ _ Hpre) as (done & Hf1 & _ & Hall).
    specialize (Hall eq_refl).
    destruct (writes_experiment_call L cur _ _ _ Hcur) as (partial & Hf2 & Hpart & _).
    exists done, partial. rewrite <- Hf0.
    split; [exact Hf1|]. split; [exact Hall|]. split; [exact Hf2|].
    split; [exact Hpart|].
    intros x p Hx Hp Hin.
    apply (later_paths_disjoint L d1 d2 d3 d4 pre cur post Ht p).
    + apply in_flat_map. exists (fst x). split; [now apply in_map | exact Hp].
    + rewrite map_app, Hall in Hin. apply in_app_or in Hin. apply in_or_app.
      destruct Hin as [Hin | Hin]; [now left | right].
      destruct Hpart as [more ->]. apply in_or_app. now left.
Qed.

Lemma failure_aborts_remaining_experiments_example :
  run_decision_tree (small_lib small_blocked) "data/ai4i2020.csv"
    (small_world small_blocked 0) =
    (Raise (OSError "results/decision_tree_experiment2/metrics.csv"),
     small_after_failure) /\
  exists done partial,
    files small_after_one = (files (small_world small_blocked 0) ++ done)%list /\
    map fst done = flat_map experiment_paths (map fst [("1", small_fold)]) /\
    files small_after_failure = (files small_after_one ++ partial)%list /\
    prefix_of (map fst partial) (experiment_paths (fst ("2", small_fold))) /\
    forall x p,
      In x [("3", small_fold); ("4", small_fold)] ->
      In p (experiment_paths (fst x)) ->
      ~ In p (map fst (done ++ partial)).
Proof.
  apply (failure_aborts_remaining_experiments (small_lib small_blocked)
           "data/ai4i2020.csv"
           (small_world small_blocked 0) (small_world small_blocked 0)
           small_after_one small_after_failure
           small_fold small_fold small_fold small_fold
           [("1", small_fold)] ("2", small_fold)
           [("3", small_fold); ("4", small_fold)]
           (OSError "results/decision_tree_experiment2/metrics.csv")).
  - reflexivity.
  - reflexivity.
  - vm_compute. reflexivity.
  - vm_compute. reflexivity.
Defined.

(** * Further facts about the script *)

Section Savers.

Variable L : Lib.

Lemma draw_outcome_inv {A} (f : rng L -> outcome A * rng L) (w : world L) o w' :
  draw_outcome L f w = (o, w') ->
  f (entropy w) = (o, entropy w') /\ files w' = files w /\ stdout w' = stdout w.
Proof.
  unfold draw_outcome. destruct (f (entropy w)) as [o1 r1].
  intros E. inversion E; subst. auto.
Qed.

(** [compute_and_save_metrics] computes the six metrics, then writes. *)
Lemma compute_and_save_metrics_inv y_true y_pred beta path (w : world L) o w' :
  compute_and_save_metrics L y_true y_pred beta path w = (o, w') ->
  (w' = w /\ o <> Ret tt) \/
  (o = Ret tt /\
   exists precision recall fbeta kappa balanced average,
     precision_score y_true y_pred = Ret precision /\
     recall_score y_true y_pred = Ret recall /\
     fbeta_score beta y_true y_pred = Ret fbeta /\
     cohen_kappa_score L y_true y_pred = Ret kappa /\
     balanced_accuracy_score L y_true y_pred = Ret balanced /\
     average_precision_score L y_true y_pred = Ret average /\
     writable L path = true /\
     w' = mkWorld
            (files w ++
             [(path, Csv (metrics_table precision recall fbeta kappa balanced average))])%list
            (stdout w) (entropy w)).
Proof.
  unfold compute_and_save_metrics.
  destruct (precision_score y_true y_pred) as [p | e];
    [rewrite bind_lift_ret | rewrite bind_lift_raise; intros E; inversion E; left;
                              split; [reflexivity | discriminate]].
  destruct (recall_score y_true y_pred) as [r | e];
    [rewrite bind_lift_ret | rewrite bind_lift_raise; intros E; inversion E; left;
                              split; [reflexivity | discriminate]].
  destruct (fbeta_score beta y_true y_pred) as [f | e];
    [rewrite bind_lift_ret | rewrite bind_lift_raise; intros E; inversion E; left;
                              split; [reflexivity | discriminate]].
  destruct (cohen_kappa_score L y_true y_pred) as [k | e];
    [rewrite bind_lift_ret | rewrite bind_lift_raise; intros E; inversion E; left;
                              split; [reflexivity | discriminate]].
  destruct (balanced_accuracy_score L y_true y_pred) as [b | e];
    [rewrite bind_lift_ret | rewrite bind_lift_raise; intros E; inversion E; left;
                              split; [reflexivity | discriminate]].
  destruct (average_precision_score L y_true y_pred) as [a | e];
    [rewrite bind_lift_ret | rewrite bind_lift_raise; intros E; inversion E; left;
                              split; [reflexivity | discriminate]].
  unfold to_csv. intros E. apply write_file_inv in E.
  destruct E as [(_ & -> & ->) | (Hw & -> & ->)].
  - left. split; [reflexivity | discriminate].
  - right. split; [reflexivity|]. exists p, r, f, k, b, a. repeat split; assumption.
Qed.

Lemma calculate_and_save_feature_importances_inv model names path (w : world L) o w' :
  calculate_and_save_feature_importances L model names path w = (o, w') ->
  (w' = w /\ o <> Ret tt) \/
  (o = Ret tt /\
   List.length names = List.length (feature_importances_ L model) /\
   writable L path = true /\
   w' = mkWorld
          (files w ++
           [(path, Csv (DataFrame_of_importances
                          (sort_values_importance_desc
                             (tie_order L (combine names (feature_importances_ L model)))
                             (combine names (feature_importances_ L model)))))])%list
          (stdout w) (entropy w)).
Proof.
  unfold calculate_and_save_feature_importances, importances_frame.
  destruct (Nat.eqb (List.length names) (List.length (feature_importances_ L model)))
    eqn:Hlen.
  - rewrite bind_lift_ret. unfold to_csv. intros E. apply write_file_inv in E.
    destruct E as [(_ & -> & ->) | (Hw & -> & ->)].
    + left. split; [reflexivity | discriminate].
    + right. apply Nat.eqb_eq in Hlen. auto.
  - rewrite bind_lift_raise. intros E. inversion E. left.
    split; [reflexivity | discriminate].
Qed.

Lemma save_confusion_matrix_inv y_true y_pred path (w : world L) o w' :
  save_confusion_matrix L y_true y_pred path w = (o, w') ->
  (w' = w /\ o <> Ret tt) \/
  (o = Ret tt /\
   exists cm,
     confusion_matrix y_true y_pred = Ret cm /\
     writable L path = true /\
     w' = mkWorld (files w ++ [(path, Txt cm)])%list (stdout w) (entropy w)).
Proof.
  unfold save_confusion_matrix.
  destruct (confusion_matrix y_true y_pred) as [cm | e].
  - rewrite bind_lift_ret. unfold savetxt. intros E. apply write_file_inv in E.
    destruct E as [(_ & -> & ->) | (Hw & -> & ->)].
    + left. split; [reflexivity | discriminate].
    + right. split; [reflexivity|]. exists cm. auto.
  - rewrite bind_lift_raise. intros E. inversion E. left.
    split; [reflexivity | discriminate].
Qed.

Lemma save_model_inv model path (w : world L) o w' :
  save_model L model path w = (o, w') ->
  (w' = w /\ o <> Ret tt) \/
  (o = Ret tt /\ writable L path = true /\
   w' = mkWorld (files w ++ [(path, Joblib model)])%list (stdout w) (entropy w)).
Proof.
  unfold save_model, dump. intros E. apply write_file_inv in E.
  destruct E as [(_ & -> & ->) | (Hw & -> & ->)].
  - left. split; [reflexivity | discriminate].
  - right. auto.
Qed.

End Savers.

Section Bounds.

Lemma count_pairs_nonneg (t p : Z) (ys : list (Z * Z)) : 0 <= count_pairs t p ys.
Proof.
  induction ys as [|[a b] r IH]; simpl; [lia|].
  destruct ((a =? t) && (b =? p)); lia.
Qed.

Lemma count_pairs_le_true (t p : Z) (y_true y_pred : list Z) :
  count_pairs t p (combine y_true y_pred) <= count_label t y_true.
Proof.
  revert y_pred. induction y_true as [|a r IH]; intros [|b rb];
    cbn [combine count_pairs count_label]; try lia.
  - pose proof (count_label_nonneg t r). destruct (a =? t); lia.
  - specialize (IH rb). destruct (a =? t), (b =? p); cbn [andb]; lia.
Qed.

Lemma count_pairs_le_pred (t p : Z) (y_true y_pred : list Z) :
  count_pairs t p (combine y_true y_pred) <= count_label p y_pred.
Proof.
  revert y_pred. induction y_true as [|a r IH]; intros [|b rb];
    cbn [combine count_pairs count_label]; try lia.
  - pose proof (count_label_nonneg p rb). destruct (b =? p); lia.
  - specialize (IH rb). destruct (a =? t), (b =? p); cbn [andb]; lia.
Qed.

Lemma prf_divide_unit (num den : Q) :
  (0 <= num)%Q -> (num <= den)%Q -> in_unit_interval (prf_divide num den).
Proof.
  intros H0 Hle. unfold prf_divide, in_unit_interval.
  destruct (Qeq_bool den 0) eqn:E; [split; discriminate|].
  assert (Hpos : (0 < den)%Q).
  { apply Qeq_bool_neq in E. destruct (Qlt_le_dec 0 den) as [H | H]; [exact H|].
    exfalso. apply E. apply Qle_antisym; [exact H | lra]. }
  rewrite Qred_correct. split.
  - apply Qle_shift_div_l; [exact Hpos | lra].
  - apply Qle_shift_div_r; [exact Hpos | lra].
Qed.

Lemma precision_score_unit (y_true y_pred : list Z) (q : Q) :
  precision_score y_true y_pred = Ret q -> in_unit_interval q.
Proof.
  unfold precision_score. destruct (check_binary_targets y_true y_pred); [|discriminate].
  intros E. inversion E; subst. apply prf_divide_unit.
  - change 0%Q with (inject_Z 0). rewrite <- Zle_Qle. apply count_pairs_nonneg.
  - rewrite <- Zle_Qle. apply count_pairs_le_pred.
Qed.

Lemma recall_score_unit (y_true y_pred : list Z) (q : Q) :
  recall_score y_true y_pred = Ret q -> in_unit_interval q.
Proof.
  unfold recall_score. destruct (check_binary_targets y_true y_pred); [|discriminate].
  intros E. inversion E; subst. apply prf_divide_unit.
  - change 0%Q with (inject_Z 0). rewrite <- Zle_Qle. apply count_pairs_nonneg.
  - rewrite <- Zle_Qle. apply count_pairs_le_true.
Qed.

Lemma fbeta_score_unit (beta : Q) (y_true y_pred : list Z) (q : Q) :
  fbeta_score beta y_true y_pred = Ret q -> in_unit_interval q.
Proof.
  unfold fbeta_score. destruct (Qle_bool 0 beta); [|discriminate].
  destruct (check_binary_targets y_true y_pred); [|discriminate].
  intros E. inversion E; subst. clear E.
  pose proof (Qsquare_nonneg beta) as Hb.
  assert (H0 : (0 <= inject_Z (tp_sum y_true y_pred))%Q).
  { change 0%Q with (inject_Z 0). rewrite <- Zle_Qle. apply count_pairs_nonneg. }
  assert (Ht : (inject_Z (tp_sum y_true y_pred) <= inject_Z (true_sum y_true))%Q).
  { rewrite <- Zle_Qle. apply count_pairs_le_true. }
  assert (Hp : (inject_Z (tp_sum y_true y_pred) <= inject_Z (pred_sum y_pred))%Q).
  { rewrite <- Zle_Qle. apply count_pairs_le_pred. }
  set (tp := inject_Z (tp_sum y_true y_pred)) in *.
  set (ts := inject_Z (true_sum y_true)) in *.
  set (ps := inject_Z (pred_sum y_pred)) in *.
  assert (H1 : (0 <= beta * beta * tp)%Q) by (apply Qmult_le_0_compat; assumption).
  assert (H2 : (0 <= beta * beta * (ts - tp))%Q)
    by (apply Qmult_le_0_compat; [assumption | lra]).
  apply prf_divide_unit.
  - setoid_replace ((1 + beta * beta) * tp)%Q with (tp + beta * beta * tp)%Q by ring.
    lra.
  - setoid_replace ((1 + beta * beta) * tp)%Q with (tp + beta * beta * tp)%Q by ring.
    setoid_replace (beta * beta * ts)%Q
      with (beta * beta * tp + beta * beta * (ts - tp))%Q by ring.
    lra.
Qed.

Lemma sum_scores_bounds (l : list score) (s : Q) :
  Forall (fun sc => forall q, sc = Some q -> in_unit_interval q) l ->
  sum_scores l = Some s ->
  (0 <= s)%Q /\ (s <= inject_Z (Z.of_nat (List.length l)))%Q.
Proof.
  intros Hall. revert s. induction Hall as [|sc r Hsc _ IH]; intros s E.
  - inversion E; subst. split; discriminate.
  - cbn [sum_scores] in E. destruct sc as [q|]; [|discriminate].
    destruct (sum_scores r) as [s'|]; [|discriminate].
    inversion E; subst. destruct (IH s' eq_refl) as [Hs0 Hs1].
    destruct (Hsc q eq_refl) as [Hq0 Hq1].
    cbn [List.length]. rewrite Nat2Z.inj_succ. unfold Z.succ. rewrite inject_Z_plus.
    change (inject_Z 1) with 1%Q. split; lra.
Qed.

Lemma mean_unit (l : list score) (m : Q) :
  Forall (fun sc => forall q, sc = Some q -> in_unit_interval q) l ->
  mean l = Some m -> in_unit_interval m.
Proof.
  intros Hall. unfold mean. destruct l as [|sc r]; [discriminate|].
  destruct (sum_scores (sc :: r)) as [s|] eqn:Es; [|discriminate].
  intros E. inversion E; subst. clear E.
  destruct (sum_scores_bounds _ _ Hall Es) as [H0 H1].
  assert (Hpos : (0 < inject_Z (Z.of_nat (List.length (sc :: r))))%Q).
  { change 0%Q with (inject_Z 0). rewrite <- Zlt_Qlt. cbn [List.length]. lia. }
  split.
  - rewrite (Qred_correct (s / inject_Z (Z.of_nat (List.length (sc :: r))))).
    apply Qle_shift_div_l; [exact Hpos | lra].
  - rewrite (Qred_correct (s / inject_Z (Z.of_nat (List.length (sc :: r))))).
    apply Qle_shift_div_r; [exact Hpos | lra].
Qed.

Lemma folds_fbeta_unit (L : Lib) est beta folds (r : rng L) :
  Forall (fun sc => forall q, sc = Some q -> in_unit_interval q)
         (fst (folds_fbeta L est beta folds r)).
Proof.
  revert r. induction folds as [|[[[X_tr y_tr] X_te] y_te] rest IH]; intros r.
  - constructor.
  - cbn [folds_fbeta].
    destruct (fold_fbeta L est beta (X_tr, y_tr, X_te, y_te) r) as [s r1] eqn:Ef.
    specialize (IH r1). destruct (folds_fbeta L est beta rest r1) as [ss r2].
    cbn [fst] in *. constructor; [|exact IH].
    intros q ->. unfold fold_fbeta in Ef.
    destruct (fit L est X_tr y_tr r) as [[m | e] r']; [|discriminate].
    destruct (predict L m X_te) as [y_pred | e]; [|discriminate].
    destruct (fbeta_score beta y_te y_pred) as [q' | e] eqn:Eq; [|discriminate].
    inversion Ef; subst. eapply fbeta_score_unit; eassumption.
Qed.

End Bounds.

Section RunFacts.

Variable L : Lib.

Lemma load_datasets_inv (filepath : string) (w : world L) o w' :
  load_datasets L filepath w = (o, w') -> w' = w.
Proof.
  unfold load_datasets, load_data, bind, lift, ret.
  destruct (read_csv L filepath) as [df | e]; [|intros E; now inversion E].
  destruct (create_experiment1_dataset L df); [|intros E; now inversion E].
  destruct (create_experiment2_dataset L df); [|intros E; now inversion E].
  destruct (create_experiment3_dataset L df); [|intros E; now inversion E].
  destruct (create_experiment4_dataset L df); intros E; now inversion E.
Qed.

Lemma best_trial_line_starts (best : frozen_trial) :
  starts_with "Best trial recall: " (best_trial_line L best).
Proof. unfold starts_with, best_trial_line. eexists. reflexivity. Qed.

(** An experiment of the table that returns has written its five paths
    and printed its line. *)
Lemma experiment_call_return (x : string * dataset L) (w w' : world L) :
  experiment_call L x w = (Ret tt, w') ->
  exists new line,
    files w' = (files w ++ new)%list /\
    map fst new = experiment_paths (fst x) /\
    stdout w' = (stdout w ++ [line])%list /\
    starts_with "Best trial recall: " line.
Proof.
  intros E.
  destruct (writes_experiment_call L x _ _ _ E) as (new & Hfiles & _ & Hall).
  specialize (Hall eq_refl).
  destruct x as [number [[[X_train X_test] y_train] y_test]].
  unfold experiment_call in E.
  destruct (experiment_inv L _ _ _ _ _ _ _ _ _ _ _ E)
    as (new' & _ & [[_ Hne] | (st & r & best & rest & _ & _ & _ & _ & Hout)]).
  { now contradiction Hne. }
  exists new, (best_trial_line L best).
  split; [exact Hfiles|]. split; [exact Hall|]. split; [exact Hout|].
  apply best_trial_line_starts.
Qed.

Lemma run_calls_cons (c : M L unit) (cs : list (M L unit)) (w : world L) :
  run_calls L (c :: cs) w = bind L c (fun _ => run_calls L cs) w.
Proof.
  destruct cs; [|reflexivity]. cbn [run_calls]. unfold bind, ret.
  destruct (c w) as [[[] | e] w1]; reflexivity.
Qed.

Lemma run_calls_return (xs : list (string * dataset L)) (w w' : world L) :
  run_calls L (map (experiment_call L) xs) w = (Ret tt, w') ->
  exists new lines,
    files w' = (files w ++ new)%list /\
    map fst new = flat_map experiment_paths (map fst xs) /\
    stdout w' = (stdout w ++ lines)%list /\
    List.length lines = List.length xs /\
    Forall (starts_with "Best trial recall: ") lines.
Proof.
  revert w. induction xs as [|x xs IH]; intros w E.
  - inversion E; subst. exists [], []. rewrite !app_nil_r. repeat split. constructor.
  - cbn [map] in E. rewrite run_calls_cons in E. apply bind_inv in E.
    destruct E as [(e & _ & He) | ([] & w1 & Ex & E)]; [discriminate|].
    destruct (experiment_call_return x _ _ Ex) as (new1 & line & Hf1 & Hp1 & Ho1 & Hl1).
    destruct (IH _ E) as (new2 & lines & Hf2 & Hp2 & Ho2 & Hlen & Hl2).
    exists (new1 ++ new2)%list, (line :: lines).
    rewrite Hf2, Hf1, Ho2, Ho1, <- !app_assoc, map_app, Hp1, Hp2.
    cbn [map flat_map List.length app]. repeat split; auto.
Qed.

Lemma distinctb_sound (l : list string) : distinctb l = true -> NoDup l.
Proof.
  induction l as [|p rest IH]; cbn [distinctb]; intros H; constructor.
  - apply andb_true_iff in H. destruct H as [H _]. apply negb_true_iff in H.
    intros Hin.
    assert (Ht : existsb (String.eqb p) rest = true).
    { apply existsb_exists. exists p. split; [exact Hin | apply String.eqb_refl]. }
    congruence.
  - apply IH. apply andb_true_iff in H. tauto.
Qed.




Lemma best_trial_none (st : study) :
  Forall (fun t => trial_value t = None) st ->
  best_trial st = Raise (ValueError "No trials are completed yet.").
Proof.
  induction 1 as [|t r Ht _ IH]; cbn [best_trial]; [reflexivity|].
  rewrite Ht. exact IH.
Qed.

Lemma write_file_ok path (c : content (Model L)) (w : world L) :
  writable L path = true ->
  write_file L path c w =
  (Ret tt, mkWorld (files w ++ [(path, c)])%list (stdout w) (entropy w)).
Proof. unfold write_file. now intros ->. Qed.

End RunFacts.

Section Matrix.

Lemma count_true_combine (t : Z) (y_true y_pred : list Z) :
  List.length y_true = List.length y_pred ->
  count_true t (combine y_true y_pred) = count_label t y_true.
Proof.
  revert y_pred. induction y_true as [|a r IH]; intros [|b rb] Hlen;
    try discriminate; cbn [combine count_true count_label]; [reflexivity|].
  rewrite IH by (simpl in Hlen; lia). reflexivity.
Qed.

(** A row of the matrix adds up to the samples of its true label. *)
Lemma row_sum_count_true (t : Z) (labels : list Z) (ys : list (Z * Z)) :
  NoDup labels ->
  (forall a b, In (a, b) ys -> In b labels) ->
  row_sum (map (fun p => count_pairs t p ys) labels) = count_true t ys.
Proof.
  intros Hnd. induction ys as [|[a b] r IH]; intros Hin.
  - cbn [count_pairs count_true]. apply row_sum_map_zero.
  - cbn [count_pairs count_true]. rewrite row_sum_map_add, IH.
    + f_equal. destruct (a =? t); cbn [andb].
      * apply row_sum_indicator; [exact Hnd|]. apply (Hin a b). now left.
      * apply row_sum_map_zero.
    + intros a' b' H. apply (Hin a' b'). now right.
Qed.

(** The diagonal adds up to the samples predicted as their true label. *)
Lemma diagonal_count_correct (labels : list Z) (ys : list (Z * Z)) :
  NoDup labels ->
  (forall a b, In (a, b) ys -> In a labels) ->
  row_sum (map (fun t => count_pairs t t ys) labels) = count_correct ys.
Proof.
  intros Hnd. induction ys as [|[a b] r IH]; intros Hin.
  - cbn [count_pairs count_correct]. apply row_sum_map_zero.
  - cbn [count_pairs count_correct]. rewrite row_sum_map_add, IH.
    + f_equal. destruct (a =? b) eqn:E.
      * apply Z.eqb_eq in E. subst b.
        rewrite (row_sum_map_ext _ (fun t => if a =? t then 1 else 0)).
        -- apply row_sum_indicator; [exact Hnd|]. apply (Hin a a). now left.
        -- intros t _. destruct (a =? t); reflexivity.
      * rewrite (row_sum_map_ext _ (fun _ => 0)); [apply row_sum_map_zero|].
        intros t _. destruct (a =? t) eqn:E1, (b =? t) eqn:E2; try reflexivity.
        apply Z.eqb_eq in E1, E2. apply Z.eqb_neq in E. congruence.
    + intros a' b' H. apply (Hin a' b'). now right.
Qed.

Lemma Forall2_map_self {A B} (P : A -> B -> Prop) (g : A -> B) (l : list A) :
  (forall a, In a l -> P a (g a)) -> Forall2 P l (map g l).
Proof.
  induction l as [|a r IH]; intros H; cbn [map]; constructor.
  - apply H. now left.
  - apply IH. intros a' Ha'. apply H. now right.
Qed.

Lemma map_nth_seq {A B} (f : A -> B) (l : list A) (d : A) :
  map (fun i => f (nth i l d)) (seq 0 (List.length l)) = map f l.
Proof.
  induction l as [|a r IH]; [reflexivity|].
  cbn [List.length seq map nth]. f_equal.
  rewrite <- seq_shift, map_map. exact IH.
Qed.

Lemma diagonal_sum_tabulate (f : Z -> Z -> Z) (labels : list Z) :
  diagonal_sum (map (fun t => map (fun p => f t p) labels) labels)
  = row_sum (map (fun t => f t t) labels).
Proof.
  unfold diagonal_sum. rewrite length_map.
  rewrite <- (map_nth_seq (fun t => f t t) labels 0).
  f_equal. apply map_ext_in. intros i Hi. apply in_seq in Hi.
  apply entry_tabulate; lia.
Qed.

End Matrix.

Section RunWrites.

Variable L : Lib.

Lemma writes_run_decision_tree (filepath : string) :
  writes (run_decision_tree L filepath) run_paths.
Proof.
  intros w o w' E. rewrite run_decision_tree_calls in E. revert w o w' E.
  change (writes (bind L (load_datasets L filepath)
                    (fun '(d1, d2, d3, d4) =>
                       run_calls L (map (experiment_call L)
                                      (experiment_table d1 d2 d3 d4))))
                 run_paths).
  apply writes_bind_silent; [apply writes_load_datasets|].
  intros [[[d1 d2] d3] d4].
  apply (writes_experiment_calls L (experiment_table d1 d2 d3 d4)).
Qed.

End RunWrites.

(** * Further properties *)

(** X3. An experiment that returns has written five artifacts that belong
    together: hyperparameters.csv holds the parameters of the best trial
    of the 100-trial study; the model in the joblib file is the pipeline
    with exactly these parameters, fitted on the whole training split; the
    metrics and the confusion matrix are computed from the predictions of
    this very model on the test split against the test labels; the
    importances are those of this model under the training columns, in
    descending order (the order among equal importances is left open).
    It has printed one line and nothing else. *)
Theorem experiment_artifacts_belong_together (L : Lib)
  (X_train : Frame L) (y_train : list Z) (X_test : Frame L) (y_test : list Z)
  (beta : Q) (experiment_dictionary model_directory experiment_number : string)
  (w w' : world L) :
  decision_tree_experiment L X_train y_train X_test y_test beta
    experiment_dictionary model_directory experiment_number w = (Ret tt, w') ->
  exists st r best depth split leaf weight model r' y_pred
         precision recall fbeta kappa balanced average cm rows,
    optimize L [] (fun t => objective L t X_train y_train beta) 100 w =
      (Ret st, mkWorld (files w) (stdout w) r) /\
    best_trial st = Ret best /\
    trial_params best = candidate_params depth split leaf weight /\
    fit L (candidate_pipeline depth split leaf weight) X_train y_train r = (Ret model, r') /\
    predict L model X_test = Ret y_pred /\
    precision_score y_test y_pred = Ret precision /\
    recall_score y_test y_pred = Ret recall /\
    fbeta_score beta y_test y_pred = Ret fbeta /\
    cohen_kappa_score L y_test y_pred = Ret kappa /\
    balanced_accuracy_score L y_test y_pred = Ret balanced /\
    average_precision_score L y_test y_pred = Ret average /\
    confusion_matrix y_test y_pred = Ret cm /\
    Permutation (combine (columns L X_train) (feature_importances_ L model)) rows /\
    StronglySorted (fun a b => (snd b <= snd a)%Q) rows /\
    w' =
    mkWorld
      (files w ++
       [ (("results/" ++ experiment_dictionary ++ "/hyperparameters.csv")%string,
          Csv (DataFrame_of_record (candidate_params depth split leaf weight)));
         (("results/" ++ experiment_dictionary ++ "/metrics.csv")%string,
          Csv (metrics_table precision recall fbeta kappa balanced average));
         (("results/" ++ experiment_dictionary ++ "/feature_importances.csv")%string,
          Csv {| df_columns := ["Feature"; "Importance"];
                 df_rows := map (fun r => [VStr (fst r); VFloat (snd r)]) rows |});
         (("results/" ++ experiment_dictionary ++ "/confusion_matrix.txt")%string,
          Txt cm);
         (("models/" ++ model_directory ++ "/" ++ experiment_number ++ ".joblib")%string,
          Joblib model) ])%list
      (stdout w ++ [best_trial_line L best])%list
      r'.
Proof.
  unfold decision_tree_experiment, create_study. intros E.
  change (bind L (ret L []) ?f w) with (f [] w) in E. cbv beta in E.
  apply bind_inv in E. rewrite optimize_run in E.
  destruct (search L X_train y_train beta 5 [] 100 (entropy w)) as [[st | e0] r] eqn:Es;
    (destruct E as [(e & Em & He) | (a & w1 & Em & E)]; try discriminate).
  inversion Em; subst a w1; clear Em.
  destruct (best_trial st) as [best | e] eqn:Eb;
    [|rewrite bind_lift_raise in E; discriminate].
  rewrite bind_lift_ret, bind_print in E. cbn [files stdout entropy] in E.
  unfold best_params_of in E. rewrite Eb in E. rewrite bind_lift_ret in E.
  destruct (search_params _ _ _ _ _ _ _ _ _ _ Es) as (added & Hst & _ & Hall).
  simpl in Hst. subst added.
  destruct (best_trial_max st best Eb) as [Hin _].
  rewrite Forall_forall in Hall.
  destruct (Hall best Hin) as (depth & split & leaf & weight & Hp).
  fold (best_trial_line L best) in E. rewrite Hp in E.
  change (getitem (candidate_params depth split leaf weight) "max_depth")
    with (@Ret value (VInt depth)) in E.
  change (getitem (candidate_params depth split leaf weight) "min_samples_split")
    with (@Ret value (VFloat split)) in E.
  change (getitem (candidate_params depth split leaf weight) "min_samples_leaf")
    with (@Ret value (VFloat leaf)) in E.
  change (getitem (candidate_params depth split leaf weight) "class_weight")
    with (@Ret value weight) in E.
  rewrite !bind_lift_ret in E.
  (* hyperparameters.csv *)
  apply bind_inv in E.
  destruct E as [(e & _ & He) | (u & w1 & Em & E)]; [discriminate|].
  apply write_file_inv in Em.
  destruct Em as [(_ & Ho & _) | (_ & _ & ->)]; [discriminate|].
  cbn [files stdout entropy] in E. rewrite !bind_lift_ret in E.
  (* the refit and the predictions *)
  apply bind_inv in E.
  destruct E as [(e & _ & He) | (model & w2 & Em & E)]; [discriminate|].
  apply draw_outcome_inv in Em. cbn [files stdout entropy] in Em.
  destruct Em as (Hfit & Hf2 & Ho2).
  destruct (predict L model X_test) as [y_pred | e] eqn:Epred;
    [rewrite bind_lift_ret in E | rewrite bind_lift_raise in E; discriminate].
  (* metrics.csv *)
  apply bind_inv in E.
  destruct E as [(e & _ & He) | (u1 & w3 & Em & E)]; [discriminate|].
  destruct u1.
  apply compute_and_save_metrics_inv in Em.
  destruct Em as [[_ Hne] | (_ & precision & recall & fbeta & kappa & balanced & average
                              & Hpr & Hre & Hfb & Hka & Hba & Hap & _ & ->)];
    [now contradiction Hne|].
  (* feature_importances.csv *)
  apply bind_inv in E.
  destruct E as [(e & _ & He) | (u2 & w4 & Em & E)]; [discriminate|].
  destruct u2.
  apply calculate_and_save_feature_importances_inv in Em.
  destruct Em as [[_ Hne] | (_ & _ & _ & ->)]; [now contradiction Hne|].
  (* confusion_matrix.txt *)
  apply bind_inv in E.
  destruct E as [(e & _ & He) | (u3 & w5 & Em & E)]; [discriminate|].
  destruct u3.
  apply save_confusion_matrix_inv in Em.
  destruct Em as [[_ Hne] | (_ & cm & Hcm & _ & ->)]; [now contradiction Hne|].
  (* the model *)
  apply save_model_inv in E.
  destruct E as [[_ Hne] | (_ & _ & ->)]; [now contradiction Hne|].
  exists st, r, best, depth, split, leaf, weight, model, (entropy w2), y_pred,
    precision, recall, fbeta, kappa, balanced, average, cm,
    (sort_values_importance_desc
       (tie_order L (combine (columns L X_train) (feature_importances_ L model)))
       (combine (columns L X_train) (feature_importances_ L model))).
  split; [rewrite optimize_run, Es; reflexivity|].
  split; [exact Eb|]. split; [exact Hp|]. split; [exact Hfit|].
  split; [exact Epred|].
  repeat (split; [assumption|]).
  split; [apply sort_values_perm|]. split; [apply sort_values_sorted|].
  cbn [files stdout entropy]. rewrite Hf2, Ho2, <- !app_assoc. reflexivity.
Qed.

Lemma experiment_artifacts_belong_together_example :
  exists st r best depth split leaf weight model r' y_pred
         precision recall fbeta kappa balanced average cm rows,
    optimize (small_lib []) []
      (fun t => objective (small_lib []) t small_frame small_frame 2) 100
      (small_world [] 0) =
      (Ret st, @mkWorld (small_lib []) [] [] r) /\
    best_trial st = Ret best /\
    trial_params best = candidate_params depth split leaf weight /\
    fit (small_lib []) (candidate_pipeline depth split leaf weight)
      small_frame small_frame r = (Ret model, r') /\
    predict (small_lib []) model small_frame = Ret y_pred /\
    precision_score small_frame y_pred = Ret precision /\
    recall_score small_frame y_pred = Ret recall /\
    fbeta_score 2 small_frame y_pred = Ret fbeta /\
    cohen_kappa_score (small_lib []) small_frame y_pred = Ret kappa /\
    balanced_accuracy_score (small_lib []) small_frame y_pred = Ret balanced /\
    average_precision_score (small_lib []) small_frame y_pred = Ret average /\
    confusion_matrix small_frame y_pred = Ret cm /\
    Permutation
      (combine (columns (small_lib []) small_frame)
         (feature_importances_ (small_lib []) model)) rows /\
    StronglySorted (fun a b => (snd b <= snd a)%Q) rows /\
    snd (small_experiment 0) =
    @mkWorld (small_lib [])
      ([] ++
       [ (("results/" ++ "demo" ++ "/hyperparameters.csv")%string,
          Csv (DataFrame_of_record (candidate_params depth split leaf weight)));
         (("results/" ++ "demo" ++ "/metrics.csv")%string,
          Csv (metrics_table precision recall fbeta kappa balanced average));
         (("results/" ++ "demo" ++ "/feature_importances.csv")%string,
          Csv {| df_columns := ["Feature"; "Importance"];
                 df_rows := map (fun r => [VStr (fst r); VFloat (snd r)]) rows |});
         (("results/" ++ "demo" ++ "/confusion_matrix.txt")%string, Txt cm);
         (("models/" ++ "tree" ++ "/" ++ "1" ++ ".joblib")%string, Joblib model) ])%list
      ([] ++ [best_trial_line (small_lib []) best])%list
      r'.
Proof.
  apply (experiment_artifacts_belong_together (small_lib [])
           small_frame small_frame small_frame small_frame 2 "demo" "tree" "1"
           (small_world [] 0) (snd (small_experiment 0))).
  vm_compute. reflexivity.
Defined.

(** X1. [run_decision_tree] builds the four splits before it runs the
    first experiment: when the CSV cannot be read, or any one of the four
    dataset creators raises (the fourth included), the run raises that
    exception and the world is as before: no experiment has run, no file
    is written, nothing is printed, no random number is drawn. *)
Theorem no_experiment_before_all_splits (L : Lib) (filepath : string)
  (w : world L) (e : exn) :
  read_csv L filepath = Raise e \/
  (exists df,
      read_csv L filepath = Ret df /\
      (create_experiment1_dataset L df = Raise e \/
       (is_ret (create_experiment1_dataset L df) = true /\
        create_experiment2_dataset L df = Raise e) \/
       (is_ret (create_experiment1_dataset L df) = true /\
        is_ret (create_experiment2_dataset L df) = true /\
        create_experiment3_dataset L df = Raise e) \/
       (is_ret (create_experiment1_dataset L df) = true /\
        is_ret (create_experiment2_dataset L df) = true /\
        is_ret (create_experiment3_dataset L df) = true /\
        create_experiment4_dataset L df = Raise e))) ->
  run_decision_tree L filepath w = (Raise e, w).
Proof.
  unfold run_decision_tree, load_data, bind, lift, ret.
  intros [Hread | (df & Hread & Hcreate)]; rewrite Hread; [reflexivity|].
  destruct Hcreate as [H1 | [(H1 & H2) | [(H1 & H2 & H3) | (H1 & H2 & H3 & H4)]]].
  - rewrite H1. reflexivity.
  - destruct (create_experiment1_dataset L df) as [[[[? ?] ?] ?] | ?];
      [|discriminate]. rewrite H2. reflexivity.
  - destruct (create_experiment1_dataset L df) as [[[[? ?] ?] ?] | ?];
      [|discriminate].
    destruct (create_experiment2_dataset L df) as [[[[? ?] ?] ?] | ?];
      [|discriminate]. rewrite H3. reflexivity.
  - destruct (create_experiment1_dataset L df) as [[[[? ?] ?] ?] | ?];
      [|discriminate].
    destruct (create_experiment2_dataset L df) as [[[[? ?] ?] ?] | ?];
      [|discriminate].
    destruct (create_experiment3_dataset L df) as [[[[? ?] ?] ?] | ?];
      [|discriminate]. rewrite H4. reflexivity.
Qed.

Lemma no_experiment_before_all_splits_example :
  run_decision_tree lib_without_fourth_split "data/ai4i2020.csv"
    (@mkWorld lib_without_fourth_split [] [] 0) =
  (Raise (KeyError "Machine failure"), @mkWorld lib_without_fourth_split [] [] 0).
Proof.
  apply (no_experiment_before_all_splits lib_without_fourth_split "data/ai4i2020.csv"
           (@mkWorld lib_without_fourth_split [] [] 0) (KeyError "Machine failure")).
  right. exists small_frame. split; [reflexivity|].
  right. right. right. repeat split; reflexivity.
Defined.

(** X2. A run that returns has written twenty files, to the twenty
    artifact paths of the four experiments in their order; these paths
    are pairwise different, so no experiment overwrites an artifact of
    another. It has printed four lines, each starting with
    "Best trial recall: ". *)
Theorem returning_run_writes_twenty_artifacts (L : Lib) (filepath : string)
  (w w' : world L) :
  run_decision_tree L filepath w = (Ret tt, w') ->
  exists new lines,
    files w' = (files w ++ new)%list /\
    map fst new = run_paths /\
    List.length new = 20%nat /\
    NoDup run_paths /\
    stdout w' = (stdout w ++ lines)%list /\
    List.length lines = 4%nat /\
    Forall (starts_with "Best trial recall: ") lines.
Proof.
  intros E. rewrite run_decision_tree_calls in E. apply bind_inv in E.
  destruct E as [(e & _ & He) | ([[[d1 d2] d3] d4] & w0 & Hload & E)]; [discriminate|].
  apply load_datasets_inv in Hload. subst w0.
  destruct (run_calls_return L _ _ _ E) as (new & lines & Hf & Hp & Ho & Hlen & Hl).
  exists new, lines.
  split; [exact Hf|]. split; [exact Hp|].
  split; [rewrite <- (length_map fst), Hp; reflexivity|].
  split; [apply distinctb_sound; vm_compute; reflexivity|].
  split; [exact Ho|]. split; [exact Hlen | exact Hl].
Qed.

Lemma returning_run_writes_twenty_artifacts_example :
  exists new lines,
    files (snd (run_decision_tree (small_lib []) "data/ai4i2020.csv" (small_world [] 0)))
      = (files (small_world [] 0) ++ new)%list /\
    map fst new = run_paths /\
    List.length new = 20%nat /\
    NoDup run_paths /\
    stdout (snd (run_decision_tree (small_lib []) "data/ai4i2020.csv" (small_world [] 0)))
      = (stdout (small_world [] 0) ++ lines)%list /\
    List.length lines = 4%nat /\
    Forall (starts_with "Best trial recall: ") lines.
Proof.
  apply (returning_run_writes_twenty_artifacts (small_lib []) "data/ai4i2020.csv"
           (small_world [] 0)).
  vm_compute. reflexivity.
Defined.

(** X4. When [compute_and_save_metrics] returns it has added exactly one
    file, at [save_path]: one row under the six columns Precision, Recall,
    Fbeta Score, Cohen Kappa, Balanced Accuracy, Average Precision, in
    this order, whose precision, recall and F-beta (with the script's
    beta = 2) are the scores of the two vectors and lie between 0 and 1. *)
Theorem metrics_row_within_bounds (L : Lib) (y_true y_pred : list Z)
  (save_path : string) (w w' : world L) :
  compute_and_save_metrics L y_true y_pred 2 save_path w = (Ret tt, w') ->
  exists precision recall fbeta kappa balanced average,
    w' = mkWorld
           (files w ++
            [(save_path,
              Csv (metrics_table precision recall fbeta kappa balanced average))])%list
           (stdout w) (entropy w) /\
    precision_score y_true y_pred = Ret precision /\
    recall_score y_true y_pred = Ret recall /\
    fbeta_score 2 y_true y_pred = Ret fbeta /\
    in_unit_interval precision /\
    in_unit_interval recall /\
    in_unit_interval fbeta.
Proof.
  intros E. apply compute_and_save_metrics_inv in E.
  destruct E as [[_ Hne] | (_ & p & r & f & k & b & a & Hp & Hr & Hf & _ & _ & _ & _ & ->)];
    [now contradiction Hne|].
  exists p, r, f, k, b, a.
  split; [reflexivity|]. split; [exact Hp|]. split; [exact Hr|]. split; [exact Hf|].
  split; [eapply precision_score_unit; eassumption|].
  split; [eapply recall_score_unit | eapply fbeta_score_unit]; eassumption.
Qed.

Lemma metrics_row_within_bounds_example :
  exists precision recall fbeta kappa balanced average,
    @mkWorld (small_lib [])
      [("metrics.csv", Csv (metrics_table (2 # 3) (2 # 3) (2 # 3)
                              (VFloat 1) (VFloat 1) (VFloat 1)))] [] 0 =
    @mkWorld (small_lib [])
      ([] ++ [("metrics.csv",
               Csv (metrics_table precision recall fbeta kappa balanced average))])%list
      [] 0 /\
    precision_score [1; 0; 1; 1] [1; 1; 0; 1] = Ret precision /\
    recall_score [1; 0; 1; 1] [1; 1; 0; 1] = Ret recall /\
    fbeta_score 2 [1; 0; 1; 1] [1; 1; 0; 1] = Ret fbeta /\
    in_unit_interval precision /\
    in_unit_interval recall /\
    in_unit_interval fbeta.
Proof.
  apply (metrics_row_within_bounds (small_lib []) [1; 0; 1; 1] [1; 1; 0; 1]
           "metrics.csv" (small_world [] 0)).
  reflexivity.
Defined.

(** X5. The hyperparameter search touches neither the files nor the
    output: whether [study.optimize] over the objective returns or
    raises, after any number of trials, the files and the printed lines
    are those from before. *)
Theorem search_writes_and_prints_nothing (L : Lib) (st : study)
  (X : Frame L) (y : list Z) (beta : Q) (n_trials : nat)
  (w : world L) (o : outcome study) (w' : world L) :
  optimize L st (fun t => objective L t X y beta) n_trials w = (o, w') ->
  files w' = files w /\ stdout w' = stdout w.
Proof.
  rewrite optimize_run.
  destruct (search L X y beta 5 st n_trials (entropy w)) as [o1 r].
  intros E. inversion E; subst. split; reflexivity.
Qed.

Lemma search_writes_and_prints_nothing_example :
  files (snd (optimize (small_lib []) []
                (fun t => objective (small_lib []) t small_frame small_frame 2) 100
                (@mkWorld (small_lib []) [("old.txt", Txt [[1]])] ["earlier line"] 3)))
    = [("old.txt", Txt [[1]])] /\
  stdout (snd (optimize (small_lib []) []
                 (fun t => objective (small_lib []) t small_frame small_frame 2) 100
                 (@mkWorld (small_lib []) [("old.txt", Txt [[1]])] ["earlier line"] 3)))
    = ["earlier line"].
Proof.
  apply (search_writes_and_prints_nothing (small_lib []) []
           small_frame small_frame 2 100
           (@mkWorld (small_lib []) [("old.txt", Txt [[1]])] ["earlier line"] 3)
           (fst (optimize (small_lib []) []
                   (fun t => objective (small_lib []) t small_frame small_frame 2) 100
                   (@mkWorld (small_lib []) [("old.txt", Txt [[1]])] ["earlier line"] 3)))).
  apply surjective_pairing.
Defined.

(** X6. When the 100 trials have run and none of them has a value (each
    objective returned NaN), the experiment raises
    ValueError "No trials are completed yet." at its print statement:
    nothing is printed and no file is written. *)
Theorem experiment_without_completed_trial (L : Lib)
  (X_train : Frame L) (y_train : list Z) (X_test : Frame L) (y_test : list Z)
  (beta : Q) (experiment_dictionary model_directory experiment_number : string)
  (w w1 : world L) (st : study) :
  optimize L [] (fun t => objective L t X_train y_train beta) 100 w = (Ret st, w1) ->
  Forall (fun t => trial_value t = None) st ->
  decision_tree_experiment L X_train y_train X_test y_test beta
    experiment_dictionary model_directory experiment_number w =
    (Raise (ValueError "No trials are completed yet."), w1) /\
  files w1 = files w /\ stdout w1 = stdout w.
Proof.
  intros Hopt Hnone. split.
  - unfold decision_tree_experiment, create_study.
    change (bind L (ret L []) ?f w) with (f [] w). cbv beta.
    rewrite (bind_ret L _ _ _ _ _ Hopt).
    rewrite (best_trial_none st Hnone). reflexivity.
  - destruct (optimize_inv L _ _ _ _ _ _ _ _ Hopt) as (_ & Hf & Ho). auto.
Qed.

Lemma experiment_without_completed_trial_example :
  decision_tree_experiment lib_with_failing_folds
    small_frame small_frame small_frame small_frame 2 "demo" "tree" "1"
    (@mkWorld lib_with_failing_folds [] [] 0) =
    (Raise (ValueError "No trials are completed yet."), snd failing_folds_search) /\
  files (snd failing_folds_search) = [] /\
  stdout (snd failing_folds_search) = [].
Proof.
  apply (experiment_without_completed_trial lib_with_failing_folds
           small_frame small_frame small_frame small_frame 2 "demo" "tree" "1"
           (@mkWorld lib_with_failing_folds [] [] 0) (snd failing_folds_search)
           failing_folds_study).
  - vm_compute. reflexivity.
  - vm_compute. repeat constructor.
Defined.

(** X7. The helpers that save an artifact compute it before they open
    their file: when one of the six metrics raises,
    [compute_and_save_metrics] raises that exception; when names and
    importances differ in number,
    [calculate_and_save_feature_importances] raises; when
    [confusion_matrix] raises, [save_confusion_matrix] raises that
    exception; and in each case the world is as before the call, so no
    file has been written. *)
Theorem savers_compute_before_writing (L : Lib) (w : world L) (path : string) :
  (forall y_true y_pred beta e,
      precision_score y_true y_pred = Raise e \/
      (is_ret (precision_score y_true y_pred) = true /\
       recall_score y_true y_pred = Raise e) \/
      (is_ret (precision_score y_true y_pred) = true /\
       is_ret (recall_score y_true y_pred) = true /\
       fbeta_score beta y_true y_pred = Raise e) \/
      (is_ret (precision_score y_true y_pred) = true /\
       is_ret (recall_score y_true y_pred) = true /\
       is_ret (fbeta_score beta y_true y_pred) = true /\
       cohen_kappa_score L y_true y_pred = Raise e) \/
      (is_ret (precision_score y_true y_pred) = true /\
       is_ret (recall_score y_true y_pred) = true /\
       is_ret (fbeta_score beta y_true y_pred) = true /\
       is_ret (cohen_kappa_score L y_true y_pred) = true /\
       balanced_accuracy_score L y_true y_pred = Raise e) \/
      (is_ret (precision_score y_true y_pred) = true /\
       is_ret (recall_score y_true y_pred) = true /\
       is_ret (fbeta_score beta y_true y_pred) = true /\
       is_ret (cohen_kappa_score L y_true y_pred) = true /\
       is_ret (balanced_accuracy_score L y_true y_pred) = true /\
       average_precision_score L y_true y_pred = Raise e) ->
      compute_and_save_metrics L y_true y_pred beta path w = (Raise e, w)) /\
  (forall model feature_names,
      List.length feature_names <> List.length (feature_importances_ L model) ->
      exists e,
        calculate_and_save_feature_importances L model feature_names path w
          = (Raise e, w)) /\
  (forall y_true y_pred e,
      confusion_matrix y_true y_pred = Raise e ->
      save_confusion_matrix L y_true y_pred path w = (Raise e, w)).
Proof.
  split; [|split].
  - intros y_true y_pred beta e H. unfold compute_and_save_metrics.
    destruct H as [H1 | [(H1 & H2) | [(H1 & H2 & H3) | [(H1 & H2 & H3 & H4)
                  | [(H1 & H2 & H3 & H4 & H5) | (H1 & H2 & H3 & H4 & H5 & H6)]]]]].
    + rewrite H1, bind_lift_raise. reflexivity.
    + destruct (precision_score y_true y_pred); [|discriminate].
      rewrite bind_lift_ret, H2, bind_lift_raise. reflexivity.
    + destruct (precision_score y_true y_pred); [|discriminate].
      destruct (recall_score y_true y_pred); [|discriminate].
      rewrite !bind_lift_ret, H3, bind_lift_raise. reflexivity.
    + destruct (precision_score y_true y_pred); [|discriminate].
      destruct (recall_score y_true y_pred); [|discriminate].
      destruct (fbeta_score beta y_true y_pred); [|discriminate].
      rewrite !bind_lift_ret, H4, bind_lift_raise. reflexivity.
    + destruct (precision_score y_true y_pred); [|discriminate].
      destruct (recall_score y_true y_pred); [|discriminate].
      destruct (fbeta_score beta y_true y_pred); [|discriminate].
      destruct (cohen_kappa_score L y_true y_pred); [|discriminate].
      rewrite !bind_lift_ret, H5, bind_lift_raise. reflexivity.
    + destruct (precision_score y_true y_pred); [|discriminate].
      destruct (recall_score y_true y_pred); [|discriminate].
      destruct (fbeta_score beta y_true y_pred); [|discriminate].
      destruct (cohen_kappa_score L y_true y_pred); [|discriminate].
      destruct (balanced_accuracy_score L y_true y_pred); [|discriminate].
      rewrite !bind_lift_ret, H6, bind_lift_raise. reflexivity.
  - intros model names Hlen.
    unfold calculate_and_save_feature_importances, importances_frame.
    apply Nat.eqb_neq in Hlen. rewrite Hlen, bind_lift_raise.
    eexists. reflexivity.
  - intros y_true y_pred e H. unfold save_confusion_matrix.
    rewrite H, bind_lift_raise. reflexivity.
Qed.

Lemma savers_compute_before_writing_example :
  compute_and_save_metrics (small_lib []) [] [] 2 "artifact" (small_world [] 0) =
    (Raise (ValueError "Found empty input array while a minimum of 1 is required"),
     small_world [] 0) /\
  save_confusion_matrix (small_lib []) [1; 0] [1] "artifact" (small_world [] 0) =
    (Raise (ValueError "Found input variables with inconsistent numbers of samples"),
     small_world [] 0).
Proof.
  destruct (savers_compute_before_writing (small_lib []) (small_world [] 0) "artifact")
    as (Hmetrics & _ & Hmatrix).
  split.
  - apply Hmetrics. left. reflexivity.
  - apply Hmatrix. reflexivity.
Defined.

(** X8. When [save_confusion_matrix] returns, the vectors have one length
    and the matrix written is square with one row and one column per
    label that occurs in either vector, in increasing order of the
    labels; each row adds up to the number of samples of its true label,
    and the diagonal adds up to the number of samples predicted as their
    true label. *)
Theorem confusion_matrix_file_rows_and_diagonal (L : Lib) (y_true y_pred : list Z)
  (filename : string) (w w' : world L) :
  save_confusion_matrix L y_true y_pred filename w = (Ret tt, w') ->
  exists cm,
    w' = mkWorld (files w ++ [(filename, Txt cm)])%list (stdout w) (entropy w) /\
    List.length y_true = List.length y_pred /\
    has_shape (List.length (unique_labels (y_true ++ y_pred)))
              (List.length (unique_labels (y_true ++ y_pred))) cm /\
    Forall2 (fun t row => row_sum row = count_label t y_true)
            (unique_labels (y_true ++ y_pred)) cm /\
    diagonal_sum cm = count_correct (combine y_true y_pred).
Proof.
  intros E. apply save_confusion_matrix_inv in E.
  destruct E as [[_ Hne] | (_ & cm & Hcm & _ & ->)]; [now contradiction Hne|].
  exists cm. split; [reflexivity|].
  unfold confusion_matrix, check_targets in Hcm.
  destruct (consistent_length y_true y_pred) eqn:Hlen; [|discriminate].
  apply Nat.eqb_eq in Hlen. cbn [negb] in Hcm.
  destruct (Nat.eqb (List.length y_true) 0); [discriminate|].
  destruct (forallb fits_int64 (y_true ++ y_pred)); [|discriminate].
  cbn [negb] in Hcm. inversion Hcm; subst cm; clear Hcm.
  set (labels := unique_labels (y_true ++ y_pred)).
  assert (Hnd : NoDup labels) by apply unique_labels_NoDup.
  assert (Hin : forall a b, In (a, b) (combine y_true y_pred) ->
                            In a labels /\ In b labels).
  { intros a b H. split; apply in_unique_labels, in_or_app.
    - left. eapply in_combine_l; eauto.
    - right. eapply in_combine_r; eauto. }
  split; [exact Hlen|]. split; [|split].
  - split; [apply length_map|]. apply Forall_forall. intros row Hrow.
    apply in_map_iff in Hrow. destruct Hrow as (t & <- & _). apply length_map.
  - apply Forall2_map_self. intros t _.
    rewrite <- (count_true_combine t y_true y_pred Hlen).
    apply row_sum_count_true; [exact Hnd|]. intros a b H. apply (Hin a b H).
  - rewrite (diagonal_sum_tabulate
               (fun t p => count_pairs t p (combine y_true y_pred)) labels).
    apply diagonal_count_correct; [exact Hnd|]. intros a b H. apply (Hin a b H).
Qed.

Lemma confusion_matrix_file_rows_and_diagonal_example :
  exists cm,
    snd (save_confusion_matrix (small_lib []) [0; 2; 5] [2; 2; 5] "matrix.txt"
           (small_world [] 0)) =
      @mkWorld (small_lib [])
        (files (small_world [] 0) ++ [("matrix.txt", Txt cm)])%list
        (stdout (small_world [] 0)) (entropy (small_world [] 0)) /\
    List.length [0; 2; 5] = List.length [2; 2; 5] /\
    has_shape (List.length (unique_labels ([0; 2; 5] ++ [2; 2; 5])))
              (List.length (unique_labels ([0; 2; 5] ++ [2; 2; 5]))) cm /\
    Forall2 (fun t row => row_sum row = count_label t [0; 2; 5])
            (unique_labels ([0; 2; 5] ++ [2; 2; 5])) cm /\
    diagonal_sum cm = count_correct (combine [0; 2; 5] [2; 2; 5]).
Proof.
  apply (confusion_matrix_file_rows_and_diagonal (small_lib []) [0; 2; 5] [2; 2; 5]
           "matrix.txt" (small_world [] 0)).
  reflexivity.
Defined.



(** X10. hyperparameters.csv is written before the model is refitted:
    when the search has returned, the best trial's parameters have been
    written and the fit of the pipeline with these parameters on the
    whole training split raises, the experiment raises that exception
    and leaves hyperparameters.csv as its only file, beside the printed
    line. *)
Theorem refit_failure_leaves_hyperparameters_only (L : Lib)
  (X_train : Frame L) (y_train : list Z) (X_test : Frame L) (y_test : list Z)
  (beta : Q) (experiment_dictionary model_directory experiment_number : string)
  (w w1 : world L) (st : study) (best : frozen_trial)
  (depth : Z) (split leaf : Q) (weight : value) (e : exn) (r' : rng L) :
  optimize L [] (fun t => objective L t X_train y_train beta) 100 w = (Ret st, w1) ->
  best_trial st = Ret best ->
  trial_params best = candidate_params depth split leaf weight ->
  writable L ("results/" ++ experiment_dictionary ++ "/hyperparameters.csv") = true ->
  fit L (candidate_pipeline depth split leaf weight) X_train y_train (entropy w1)
    = (Raise e, r') ->
  decision_tree_experiment L X_train y_train X_test y_test beta
    experiment_dictionary model_directory experiment_number w =
    (Raise e,
     mkWorld
       (files w ++
        [(("results/" ++ experiment_dictionary ++ "/hyperparameters.csv")%string,
          Csv (DataFrame_of_record (candidate_params depth split leaf weight)))])%list
       (stdout w ++ [best_trial_line L best])%list
       r').
Proof.
  intros Hopt Hbest Hp Hw Hfit.
  destruct (optimize_inv L _ _ _ _ _ _ _ _ Hopt) as (_ & Hf1 & Ho1).
  unfold decision_tree_experiment, create_study.
  change (bind L (ret L []) ?f w) with (f [] w). cbv beta.
  rewrite (bind_ret L _ _ _ _ _ Hopt).
  rewrite Hbest, bind_lift_ret, bind_print.
  unfold best_params_of. rewrite Hbest, bind_lift_ret.
  fold (best_trial_line L best). rewrite Hp.
  change (getitem (candidate_params depth split leaf weight) "max_depth")
    with (@Ret value (VInt depth)).
  change (getitem (candidate_params depth split leaf weight) "min_samples_split")
    with (@Ret value (VFloat split)).
  change (getitem (candidate_params depth split leaf weight) "min_samples_leaf")
    with (@Ret value (VFloat leaf)).
  change (getitem (candidate_params depth split leaf weight) "class_weight")
    with (@Ret value weight).
  rewrite !bind_lift_ret. unfold to_csv.
  rewrite (bind_ret L _ _ _ _ _ (write_file_ok L _ _ _ Hw)).
  rewrite !bind_lift_ret.
  apply bind_raise. unfold fit_pipeline, draw_outcome.
  cbn [files stdout entropy]. unfold candidate_pipeline in Hfit. rewrite Hfit.
  rewrite Hf1, Ho1. reflexivity.
Qed.

Lemma refit_failure_leaves_hyperparameters_only_example :
  decision_tree_experiment lib_without_refit
    small_frame small_frame small_frame small_frame 2 "demo" "tree" "1"
    (@mkWorld lib_without_refit [] [] 0) =
    (Raise (ValueError "could not fit"),
     @mkWorld lib_without_refit
       ([] ++
        [(("results/" ++ "demo" ++ "/hyperparameters.csv")%string,
          Csv (DataFrame_of_record
                 (candidate_params 1 1 (1 # 1000) (VStr "balanced"))))])%list
       ([] ++ [best_trial_line lib_without_refit without_refit_best])%list
       901).
Proof.
  apply (refit_failure_leaves_hyperparameters_only lib_without_refit
           small_frame small_frame small_frame small_frame 2 "demo" "tree" "1"
           (@mkWorld lib_without_refit [] [] 0) (snd without_refit_search)
           without_refit_study without_refit_best
           1 1 (1 # 1000)%Q (VStr "balanced") (ValueError "could not fit") 901).
  - vm_compute. reflexivity.
  - vm_compute. reflexivity.
  - vm_compute. reflexivity.
  - reflexivity.
  - vm_compute. reflexivity.
Defined.

(** X11. With the script's beta = 2, every trial of a study the search
    returns has either no value or a value between 0 and 1 (a mean of
    F-2 scores); so the value of the best trial, which the experiment
    prints, lies between 0 and 1. *)
Theorem trial_values_within_bounds (L : Lib) (X : Frame L) (y : list Z)
  (n_trials : nat) (w w1 : world L) (st : study) :
  optimize L [] (fun t => objective L t X y 2) n_trials w = (Ret st, w1) ->
  (forall t v, In t st -> trial_value t = Some v -> in_unit_interval v) /\
  (forall best,
      best_trial st = Ret best ->
      exists v, trial_value best = Some v /\ in_unit_interval v).
Proof.
  intros Hopt. apply optimize_inv in Hopt. destruct Hopt as [Hs _].
  assert (Hall : Forall (fun t => forall v, trial_value t = Some v -> in_unit_interval v) st).
  { destruct (search_invariant L
                (fun t => forall v, trial_value t = Some v -> in_unit_interval v)
                X y 2 5 n_trials) with (st := @nil frozen_trial) (r := entropy w)
                                          (st' := st) (r' := entropy w1)
      as (added & Hst & _ & Hadded).
    - intros st0 r0 depth split leaf weight r4 folds _ _ v Hv. cbn [trial_value] in Hv.
      eapply mean_unit; [|exact Hv]. apply folds_fbeta_unit.
    - exact Hs.
    - simpl in Hst. subst added. exact Hadded. }
  rewrite Forall_forall in Hall. split.
  - intros t v Hin Hv. exact (Hall t Hin v Hv).
  - intros best Hbest. destruct (best_trial_max st best Hbest) as (Hin & bv & Hbv & _).
    exists bv. split; [exact Hbv|]. exact (Hall best Hin bv Hbv).
Qed.

Lemma trial_values_within_bounds_example :
  (forall t v,
      In t (match fst (optimize (small_lib []) []
                         (fun t => objective (small_lib []) t small_frame small_frame 2)
                         100 (small_world [] 1)) with
            | Ret st => st
            | Raise _ => []
            end) ->
      trial_value t = Some v -> in_unit_interval v) /\
  (forall best,
      best_trial (match fst (optimize (small_lib []) []
                               (fun t => objective (small_lib []) t small_frame small_frame 2)
                               100 (small_world [] 1)) with
                  | Ret st => st
                  | Raise _ => []
                  end) = Ret best ->
      exists v, trial_value best = Some v /\ in_unit_interval v).
Proof.
  apply (trial_values_within_bounds (small_lib []) small_frame small_frame 100
           (small_world [] 1)
           (snd (optimize (small_lib []) []
                   (fun t => objective (small_lib []) t small_frame small_frame 2)
                   100 (small_world [] 1)))).
  vm_compute. reflexivity.
Defined.

(** X12. Whatever the outcome of a run, the files it writes go to a first
    part of the twenty artifact paths, in their order: the run never
    writes outside results/decision_tree_experiment<k>/ and
    models/decision_tree/. *)
Theorem run_writes_only_under_results_and_models (L : Lib) (filepath : string)
  (w : world L) (o : outcome unit) (w' : world L) :
  run_decision_tree L filepath w = (o, w') ->
  exists new,
    files w' = (files w ++ new)%list /\
    prefix_of (map fst new) run_paths /\
    Forall under_results_or_models (map fst new).
Proof.
  intros E.
  destruct (writes_run_decision_tree L filepath _ _ _ E) as (new & Hfiles & Hpre & _).
  exists new. split; [exact Hfiles|]. split; [exact Hpre|].
  destruct Hpre as [rest Hrest].
  assert (Hall : Forall under_results_or_models run_paths).
  { unfold run_paths, under_results_or_models, starts_with.
    cbn [flat_map map experiment_paths artifact_paths app].
    repeat (apply Forall_cons;
            [first [left; eexists; reflexivity | right; eexists; reflexivity]|]).
    apply Forall_nil. }
  rewrite Hrest in Hall. apply Forall_app in Hall. tauto.
Qed.

Lemma run_writes_only_under_results_and_models_example :
  exists new,
    files small_after_failure = (files (small_world small_blocked 0) ++ new)%list /\
    prefix_of (map fst new) run_paths /\
    Forall under_results_or_models (map fst new).
Proof.
  apply (run_writes_only_under_results_and_models (small_lib small_blocked)
           "data/ai4i2020.csv" (small_world small_blocked 0)
           (Raise (OSError "results/decision_tree_experiment2/metrics.csv"))).
  vm_compute. reflexivity.
Defined.
